(** * PrjTrx: the project tray of [prj_pystray.py]

    A shallow embedding of the selection core of the tray program: identifier
    parsing, the icon probe, the [Project] and [PrjTray] classes and the
    start-up code of the script, followed by the properties of the
    specification that were checked against them.

    Python values are modelled as follows.
    - [str] is [string]; the separators the program looks for are ASCII, so
      a byte-wise reading agrees with Python's code-point reading.
    - A raised exception is the [Raise] result of [Res]; code with effects
      runs in the state-and-exception monad [M], whose state survives a
      raise, as the effects of a Python statement survive the exception that
      follows it.
    - [OrderedDict] is an association list with unique keys, updated in
      place when the key is present and extended at the end otherwise.
    - A selection key is a [str] or a pair of [str]: the type [Key].
    - A closure handed to pystray is the data it captured ([OnClick],
      [IsSelected], [QuitAction]); running it is the method of the same
      name. *)

From Stdlib Require Import String Ascii List Bool Arith ZArith Lia.
From Stdlib Require Import DecimalString.
Import ListNotations.

Open Scope string_scope.

Set Implicit Arguments.

(** ** Exceptions and results *)

Inductive Exn : Type :=
| KeyError (k : string)
| IndexError
| StopIteration
| ValueError
| AttributeError
| OSError.

Inductive Res (A : Type) : Type :=
| Ok (a : A)
| Raise (e : Exn).

Arguments Ok {A} a.
Arguments Raise {A} e.

Definition res_bind {A B : Type} (r : Res A) (k : A -> Res B) : Res B :=
  match r with
  | Ok a => k a
  | Raise e => Raise e
  end.

(** ** The state-and-exception monad *)

Definition M (S A : Type) : Type := S -> Res A * S.

Definition ret {S A : Type} (a : A) : M S A := fun s => (Ok a, s).

Definition raise {S A : Type} (e : Exn) : M S A := fun s => (Raise e, s).

Definition bind {S A B : Type} (m : M S A) (k : A -> M S B) : M S B :=
  fun s =>
    match m s with
    | (Ok a, s') => k a s'
    | (Raise e, s') => (Raise e, s')
    end.

Definition gets {S A : Type} (f : S -> A) : M S A := fun s => (Ok (f s), s).

Definition modify {S : Type} (f : S -> S) : M S unit := fun s => (Ok tt, f s).

Definition lift_res {S A : Type} (r : Res A) : M S A := fun s => (r, s).

Declare Scope monad_scope.
Delimit Scope monad_scope with monad.

Notation "x <- c ;; k" := (bind c (fun x => k))
  (at level 61, c at next level, right associativity) : monad_scope.
Notation "' pat <- c ;; k" := (bind c (fun x => match x with pat => k end))
  (at level 61, pat pattern, c at next level, right associativity) : monad_scope.
Notation "c ;;; k" := (bind c (fun _ => k))
  (at level 61, right associativity) : monad_scope.

Open Scope monad_scope.

(** ** Python built-ins the program uses *)

(** [s.split(sep)] for a one-character separator: never the empty list. *)
Fixpoint split (sep : ascii) (s : string) : list string :=
  match s with
  | EmptyString => [EmptyString]
  | String c r =>
      if Ascii.eqb c sep then EmptyString :: split sep r
      else
        match split sep r with
        | h :: t => String c h :: t
        | [] => [String c EmptyString]
        end
  end.

(** [l[i]] with Python's negative indices; out of range raises. *)
Definition getitem {A : Type} (l : list A) (i : Z) : Res A :=
  let n := Z.of_nat (List.length l) in
  let j := (if i <? 0 then i + n else i)%Z in
  if ((j <? 0) || (n <=? j))%Z then Raise IndexError
  else
    match nth_error l (Z.to_nat j) with
    | Some a => Ok a
    | None => Raise IndexError
    end.

(** [s.rfind(c)]: the index of the last occurrence, [None] for Python's -1. *)
Fixpoint rfind (c : ascii) (s : string) : option nat :=
  match s with
  | EmptyString => None
  | String a r =>
      match rfind c r with
      | Some i => Some (S i)
      | None => if Ascii.eqb a c then Some 0 else None
      end
  end.

(** [c in s] for a character. *)
Fixpoint contains (c : ascii) (s : string) : bool :=
  match s with
  | EmptyString => false
  | String a r => Ascii.eqb a c || contains c r
  end.

Definition newline : string := String (ascii_of_nat 10) EmptyString.

(** ** [get_id_name] *)

Definition get_id_name (prj : string) : Res (string * string) :=
  let parts := split "-" prj in
  res_bind (getitem parts 0) (fun first =>
  res_bind (getitem parts (-1)) (fun last =>
  Ok (first, last))).

(** ** [pathlib] paths (POSIX flavour)

    [Path(s)] splits [s] at the slashes and drops the empty and the [.]
    components; the root is what the leading slashes say.  Only the part of
    the class that [get_image_path] uses is modelled. *)

Module Path.

Record t : Type := mk { root : string; parts : list string }.

Fixpoint leading_slashes (s : string) : nat :=
  match s with
  | String c r => if Ascii.eqb c "/" then S (leading_slashes r) else 0
  | EmptyString => 0
  end.

Definition keep_part (p : string) : bool :=
  negb (String.eqb p "" || String.eqb p ".").

Definition of_string (s : string) : t :=
  {| root := match leading_slashes s with
             | 0 => ""
             | 2 => "//"
             | _ => "/"
             end;
     parts := filter keep_part (split "/" s) |}.

(** [str(path)] *)
Definition to_string (p : t) : string :=
  match root p, parts p with
  | EmptyString, [] => "."
  | r, ps => r ++ String.concat "/" ps
  end.

(** [path.name]: the last component, empty when there is none. *)
Definition name (p : t) : string := last (parts p) "".

(** [path.suffix]: from the last dot of the name, unless that dot is the
    first or the last character of the name. *)
Definition suffix_of_name (n : string) : string :=
  match rfind "." n with
  | Some i =>
      if ((0 <? i) && (i <? String.length n - 1))%nat
      then substring i (String.length n - i) n
      else ""
  | None => ""
  end.

Definition suffix (p : t) : string := suffix_of_name (name p).

(** [path.with_suffix(suffix)] for a well-formed [suffix] such as [.ico]:
    the old suffix of the name, when there is one, is replaced. *)
Definition with_suffix (p : t) (sfx : string) : Res t :=
  let n := name p in
  if String.eqb n "" then Raise ValueError
  else
    let old_suffix := suffix p in
    let n' :=
      if String.eqb old_suffix "" then n ++ sfx
      else substring 0 (String.length n - String.length old_suffix) n ++ sfx in
    Ok {| root := root p; parts := (removelast (parts p) ++ [n'])%list |}.

End Path.

(** ** The world outside the program

    The file system as the program reads it ([exists], [Image.open]), the
    clock, and the two output streams: what was printed and what was
    appended to which file, both in the order of the calls. *)

Record datetime : Type := mkdatetime {
  year : nat; month : nat; day : nat;
  hour : nat; minute : nat; second : nat
}.

Inductive Image : Type := Bitmap (data : string).

Record World : Type := mkWorld {
  fs_exists : string -> bool;
  image_file : string -> option Image;
  appendable : string -> bool;
  clock : nat -> datetime;
  clock_reads : nat;
  console : list string;
  appended : list (string * string)
}.

Definition with_console (w : World) (c : list string) : World :=
  {| fs_exists := fs_exists w; image_file := image_file w;
     appendable := appendable w; clock := clock w;
     clock_reads := clock_reads w; console := c; appended := appended w |}.

Definition with_appended (w : World) (a : list (string * string)) : World :=
  {| fs_exists := fs_exists w; image_file := image_file w;
     appendable := appendable w; clock := clock w;
     clock_reads := clock_reads w; console := console w; appended := a |}.

Definition with_created (w : World) (path : string) : World :=
  {| fs_exists := fun p => String.eqb p path || fs_exists w p;
     image_file := image_file w;
     appendable := appendable w; clock := clock w;
     clock_reads := clock_reads w; console := console w;
     appended := appended w |}.

Definition with_clock_reads (w : World) (n : nat) : World :=
  {| fs_exists := fs_exists w; image_file := image_file w;
     appendable := appendable w; clock := clock w;
     clock_reads := n; console := console w; appended := appended w |}.

(** [print(line)] *)
Definition print (line : string) : M World unit :=
  modify (fun w => with_console w (console w ++ [line])%list).

(** [path.exists()], for a file system that answers the probe.  A name the
    operating system refuses to look up (one that is too long, say) makes
    the real call raise [OSError]; such names are outside this model. *)
Definition path_exists (p : Path.t) : M World bool :=
  gets (fun w => fs_exists w (Path.to_string p)).

(** [Image.open(fp)]: [None] has no [read] method; a file that cannot be
    opened or decoded raises too. *)
Definition Image_open (fp : option Path.t) : M World Image :=
  match fp with
  | None => raise AttributeError
  | Some p =>
      img <- gets (fun w => image_file w (Path.to_string p)) ;;
      match img with
      | Some i => ret i
      | None => raise OSError
      end
  end.

(** [datetime.now()] *)
Definition datetime_now : M World datetime :=
  t <- gets (fun w => clock w (clock_reads w)) ;;
  modify (fun w => with_clock_reads w (S (clock_reads w))) ;;;
  ret t.

(** [with open(path, 'at') as f: f.write(text)].  [appendable] says whether
    the file can be opened for appending: if it cannot, [open] raises
    [OSError] and nothing is written; if it can, the file exists from then
    on and the text is taken to be written whole.  A write that fails after
    the file was opened (a full disk, a character the encoding lacks) is
    outside this model. *)
Definition append_text (path text : string) : M World unit :=
  ok <- gets (fun w => appendable w path) ;;
  if ok : bool
  then modify (fun w =>
         with_appended (with_created w path) (appended w ++ [(path, text)])%list)
  else raise OSError.

(** Decimal digits of a number, and zero filling to a width, as [strftime]
    prints its fields. *)
Definition decimal (n : nat) : string := NilZero.string_of_uint (Nat.to_uint n).

Fixpoint zeros (n : nat) : string :=
  match n with
  | 0 => ""
  | S k => String "0" (zeros k)
  end.

Definition zfill (width : nat) (s : string) : string :=
  zeros (width - String.length s) ++ s.

(** [time.strftime('%Y-%m-%d %H:%M:%S')], with the year in four digits as
    documented.  For years below 1000 the C library decides whether the
    year is zero-filled, so the result is the platform's there; the clock of
    a running program is far from such years. *)
Definition strftime (t : datetime) : string :=
  zfill 4 (decimal (year t)) ++ "-" ++ zfill 2 (decimal (month t)) ++ "-"
  ++ zfill 2 (decimal (day t)) ++ " " ++ zfill 2 (decimal (hour t)) ++ ":"
  ++ zfill 2 (decimal (minute t)) ++ ":" ++ zfill 2 (decimal (second t)).

(** ** [get_image_path] *)

Definition get_image_path (project_name : string) : M World (option Path.t) :=
  let prefix := "myIcon_" in
  let icon_ext := ".ico" in
  let f := Path.of_string (prefix ++ project_name) in
  f <- lift_res (Path.with_suffix f icon_ext) ;;
  e <- path_exists f ;;
  if e : bool then ret (Some f) else ret None.

(** ** [OrderedDict] *)

Module OrderedDict.

Definition t (V : Type) : Type := list (string * V).

Definition empty {V : Type} : t V := [].

(** [d[k] = v] *)
Fixpoint set {V : Type} (d : t V) (k : string) (v : V) : t V :=
  match d with
  | [] => [(k, v)]
  | (k', v') :: r =>
      if String.eqb k' k then (k', v) :: r else (k', v') :: set r k v
  end.

Fixpoint find {V : Type} (d : t V) (k : string) : option V :=
  match d with
  | [] => None
  | (k', v) :: r => if String.eqb k' k then Some v else find r k
  end.

(** [d[k]] *)
Definition get {V : Type} (d : t V) (k : string) : Res V :=
  match find d k with
  | Some v => Ok v
  | None => Raise (KeyError k)
  end.

(** [k in d]; [None] is no key of a dictionary of strings. *)
Definition mem {V : Type} (d : t V) (k : option string) : bool :=
  match k with
  | Some k => match find d k with Some _ => true | None => false end
  | None => false
  end.

(** [next(iter(d))] and [next(iter(d.values()))] *)
Definition first_key {V : Type} (d : t V) : Res string :=
  match d with
  | (k, _) :: _ => Ok k
  | [] => Raise StopIteration
  end.

Definition first_value {V : Type} (d : t V) : Res V :=
  match d with
  | (_, v) :: _ => Ok v
  | [] => Raise StopIteration
  end.

Definition keys {V : Type} (d : t V) : list string := map fst d.

End OrderedDict.

(** [for x in xs: acc = body(acc, x)] with a body that may raise. *)
Fixpoint for_each {S A B : Type} (xs : list B) (acc : A) (body : A -> B -> M S A)
  : M S A :=
  match xs with
  | [] => ret acc
  | x :: r => acc' <- body acc x ;; for_each r acc' body
  end.

(** ** [class Project] *)

Module Project.

Record t : Type := mk {
  id : string;
  name : string;
  icon : option Path.t;
  workpackages : OrderedDict.t (string * option Path.t)
}.

(** [Project.__init__(identifier, workpackages)] *)
Definition init (identifier : string) (wps : list string) : M World t :=
  '(self_id, self_name) <- lift_res (get_id_name identifier) ;;
  self_icon <- get_image_path self_name ;;
  self_workpackages <-
    for_each wps OrderedDict.empty (fun d wp =>
      '(wp_id, wp_name) <- lift_res (get_id_name wp) ;;
      wp_icon <- get_image_path wp_name ;;
      ret (OrderedDict.set d wp_id (wp_name, wp_icon))) ;;
  ret {| id := self_id; name := self_name; icon := self_icon;
         workpackages := self_workpackages |}.

(** [get_wp_icon(key=None)]: the look-up is guarded by the membership
    test, so it cannot raise. *)
Definition get_wp_icon (self : t) (key : option string) : option Path.t :=
  if OrderedDict.mem (workpackages self) key then
    match key with
    | Some k =>
        match OrderedDict.find (workpackages self) k with
        | Some wp =>
            let wp_icon := snd wp in
            match wp_icon with
            | None => icon self
            | Some _ => wp_icon
            end
        | None => icon self
        end
    | None => icon self
    end
  else icon self.

(** [get_id(wp=None)] *)
Definition get_id (self : t) (wp : option string) : string :=
  match wp with
  | None =>
      match workpackages self with
      | [] => id self
      | (default_wp, _) :: _ => id self ++ ":" ++ default_wp
      end
  | Some wp => id self ++ ":" ++ wp
  end.

End Project.

(** ** Selection keys and the menu description *)

Inductive Key : Type :=
| KStr (project : string)
| KTup (project : string) (wp : string).

Definition Key_eqb (a b : Key) : bool :=
  match a, b with
  | KStr x, KStr y => String.eqb x y
  | KTup x u, KTup y v => String.eqb x y && String.eqb u v
  | _, _ => false
  end.

(** [pystray.MenuItem(text, action, checked=None, radio=False)]; the action
    is a click handler or a submenu, [checked] the key that [is_selected]
    captured. *)
Inductive MenuItem : Type :=
| Item (text : string) (action : Action) (checked : option Key) (radio : bool)
| SEPARATOR
with Action : Type :=
| OnClick (key : Key)
| QuitAction (trigger : string)
| Menu (items : list MenuItem).

(** ** [class PrjTray] *)

Module PrjTray.

Record t : Type := mk {
  project : Key;
  logfile : string;
  projects : OrderedDict.t Project.t;
  menu : list MenuItem;
  fallback_icon : Image;
  tray_icon : Image;
  tray_stopped : bool
}.

Definition set_project (self : t) (k : Key) : t :=
  {| project := k; logfile := logfile self; projects := projects self;
     menu := menu self; fallback_icon := fallback_icon self;
     tray_icon := tray_icon self; tray_stopped := tray_stopped self |}.

Definition set_tray_icon (self : t) (i : Image) : t :=
  {| project := project self; logfile := logfile self;
     projects := projects self; menu := menu self;
     fallback_icon := fallback_icon self;
     tray_icon := i; tray_stopped := tray_stopped self |}.

Definition set_tray_stopped (self : t) : t :=
  {| project := project self; logfile := logfile self;
     projects := projects self; menu := menu self;
     fallback_icon := fallback_icon self;
     tray_icon := tray_icon self; tray_stopped := true |}.

(** The object together with the world it acts on. *)
Record Sess : Type := mkSess { self : t; world : World }.

Definition in_world {A : Type} (m : M World A) : M Sess A :=
  fun s =>
    match m (world s) with
    | (r, w') => (r, {| self := self s; world := w' |})
    end.

Definition update_self (f : t -> t) : M Sess unit :=
  modify (fun s => {| self := f (self s); world := world s |}).

(** [make_menu] *)
Definition make_menu (projects : OrderedDict.t Project.t) : list MenuItem :=
  let menu_items :=
    fold_left (fun menu_items (entry : string * Project.t) =>
      let (id, p) := entry in
      let key := KStr id in
      if (1 <? List.length (Project.workpackages p))%nat then
        let submenu_items :=
          fold_left (fun submenu_items (wp_entry : string * (string * option Path.t)) =>
            let (wp_id, wp) := wp_entry in
            let wp_key := KTup id wp_id in
            (submenu_items ++ [Item (fst wp) (OnClick wp_key) (Some wp_key) true])%list)
            (Project.workpackages p) [] in
        (menu_items ++ [Item (Project.name p) (Menu submenu_items) None false])%list
      else
        (menu_items ++ [Item (Project.name p) (OnClick key) (Some key) true])%list)
      projects [] in
  let menu_items := (menu_items ++ [SEPARATOR])%list in
  let menu_items :=
    (menu_items ++ [Item "Quit" (QuitAction "Menu Exit") None false])%list in
  menu_items.

(** [get_project(key)] *)
Definition get_project (projects : OrderedDict.t Project.t) (key : Key)
  : Res (Project.t * option string) :=
  let (project, wp) :=
    match key with
    | KTup k0 k1 => (k0, Some k1)
    | KStr k => (k, None)
    end in
  res_bind (OrderedDict.get projects project) (fun p => Ok (p, wp)).

(** [is_selected(key)(item)] *)
Definition is_selected (key : Key) (s : t) : bool := Key_eqb key (project s).

(** [log_change(info)] *)
Definition log_change (logfile : string) (info : string) : M World unit :=
  time <- datetime_now ;;
  let time_fmt := strftime time in
  let log_text := time_fmt ++ " -- changed <" ++ info ++ ">" in
  print log_text ;;;
  append_text logfile (log_text ++ newline).

(** [change_project(new_key)] *)
Definition change_project (new_key : Key) : M Sess unit :=
  update_self (fun s => set_project s new_key) ;;;
  prjs <- gets (fun s => projects (self s)) ;;
  '(p, wp) <- lift_res (get_project prjs new_key) ;;
  let icon_path := Project.get_wp_icon p wp in
  icon <- gets (fun s => fallback_icon (self s)) ;;
  icon <- match icon_path with
          | Some path => in_world (Image_open (Some path))
          | None => in_world (print "Icon fallback") ;;; ret icon
          end ;;
  update_self (fun s => set_tray_icon s icon) ;;;
  let info := Project.get_id p wp in
  lf <- gets (fun s => logfile (self s)) ;;
  in_world (log_change lf info).

(** [on_click(key)(icon, item)] *)
Definition on_click (key : Key) : M Sess unit :=
  cur <- gets (fun s => project (self s)) ;;
  if Key_eqb cur key then in_world (print "No change")
  else change_project key.

(** [quit(trigger)(icon, item)] *)
Definition quit (trigger : string) : M Sess unit :=
  lf <- gets (fun s => logfile (self s)) ;;
  in_world (log_change lf ("QUIT (" ++ trigger ++ ")")) ;;;
  update_self set_tray_stopped.

(** Running the handler stored in a menu entry; a submenu opens without
    any effect on the program. *)
Definition run_action (a : Action) : M Sess unit :=
  match a with
  | OnClick key => on_click key
  | QuitAction trigger => quit trigger
  | Menu _ => ret tt
  end.

(** [PrjTray.__init__(logfile, projects, default)]: the object exists for
    the caller only when the constructor returns. *)
Definition init (logfile : string) (projects : OrderedDict.t Project.t)
  (default : Key) : M World t :=
  let self_menu := make_menu projects in
  '(p, wp) <- lift_res (get_project projects default) ;;
  image <- Image_open (Project.get_wp_icon p wp) ;;
  let obj := {| project := default; logfile := logfile; projects := projects;
                menu := self_menu; fallback_icon := image; tray_icon := image;
                tray_stopped := false |} in
  fun w =>
    match change_project default {| self := obj; world := w |} with
    | (Ok _, s) => (Ok (self s), world s)
    | (Raise e, s) => (Raise e, world s)
    end.

End PrjTray.

(** ** The script: catalog, default selection, start-up *)

Definition Config : Type := list (string * list string).

(** [projects = OrderedDict(); for k, v in conf.items(): ...] *)
Definition build_projects (conf : Config) : M World (OrderedDict.t Project.t) :=
  for_each conf OrderedDict.empty (fun projects (kv : string * list string) =>
    let (k, v) := kv in
    p <- Project.init k v ;;
    ret (OrderedDict.set projects (Project.id p) p)).

(** The computation of [default] *)
Definition default_selection (projects : OrderedDict.t Project.t) : Res Key :=
  res_bind (OrderedDict.first_value projects) (fun first_prj =>
  if (1 <? List.length (Project.workpackages first_prj))%nat then
    res_bind (OrderedDict.first_key (Project.workpackages first_prj)) (fun first_wp =>
    Ok (KTup (Project.id first_prj) first_wp))
  else Ok (KStr (Project.name first_prj))).

(** From the loaded configuration to the constructed tray; an exception that
    leaves this code is not caught anywhere and ends the process. *)
Definition startup (logfile : string) (conf : Config) : M World PrjTray.t :=
  projects <- build_projects conf ;;
  default <- lift_res (default_selection projects) ;;
  PrjTray.init logfile projects default.


(** [term_handler(signal, frame)]: the global [g_tray] is [None] until the
    tray has been constructed; afterwards it is the tray of the script. *)
Definition term_handler : M (option PrjTray.Sess) unit :=
  fun g_tray =>
    match g_tray with
    | None => (Ok tt, None)
    | Some tray =>
        match PrjTray.quit "SIGTERM" tray with
        | (r, tray') => (r, Some tray')
        end
    end.
(** * Properties *)

(** ** Notions the statements use *)

(** No dash in a segment. *)
Definition dashfree (s : string) : bool := negb (contains "-" s).

(** The project and the work-package a selection key names. *)
Definition key_project (k : Key) : string :=
  match k with
  | KStr p => p
  | KTup p _ => p
  end.

Definition key_wp (k : Key) : option string :=
  match k with
  | KStr _ => None
  | KTup _ w => Some w
  end.

(** A key is valid for a catalog when its project is in the catalog and its
    work-package, if it names one, is in that project. *)
Definition valid_key (projects : OrderedDict.t Project.t) (k : Key) : bool :=
  match OrderedDict.find projects (key_project k) with
  | None => false
  | Some p =>
      match key_wp k with
      | None => true
      | Some w => OrderedDict.mem (Project.workpackages p) (Some w)
      end
  end.

(** The icon of the work-package a key names, when it names one that has an
    icon. *)
Definition wp_icon (p : Project.t) (k : Key) : option Path.t :=
  match key_wp k with
  | Some w =>
      match OrderedDict.find (Project.workpackages p) w with
      | Some wp => snd wp
      | None => None
      end
  | None => None
  end.

(** The fallback precedence in the words of the specification: the
    work-package's icon, else the project's icon, else the cached start-up
    icon.  [None] when the chosen file cannot be opened as an image. *)
Definition ResolveIcon (p : Project.t) (k : Key) (fallbackDefaultIcon : Image)
  (w : World) : option Image :=
  match wp_icon p k with
  | Some path => image_file w (Path.to_string path)
  | None =>
      match Project.icon p with
      | Some path => image_file w (Path.to_string path)
      | None => Some fallbackDefaultIcon
      end
  end.

(** The label of a selection in the words of the specification. *)
Definition selection_label (p : Project.t) (k : Key) : string :=
  match key_wp k with
  | Some w => Project.id p ++ ":" ++ w
  | None =>
      match OrderedDict.keys (Project.workpackages p) with
      | [] => Project.id p
      | first_wp :: _ => Project.id p ++ ":" ++ first_wp
      end
  end.

(** The record of a change, without its newline. *)
Definition change_record (t : datetime) (label : string) : string :=
  strftime t ++ " -- changed <" ++ label ++ ">".

(** The range of the fields of a Python [datetime]. *)
Definition valid_datetime (t : datetime) : bool :=
  ((1 <=? year t) && (year t <? 100 * 100) && (1 <=? month t) && (month t <=? 12)
   && (1 <=? day t) && (day t <=? 31) && (hour t <? 24) && (minute t <? 60)
   && (second t <? 60))%nat.

(** The pattern [YYYY-MM-DD HH:MM:SS]. *)
Inductive CharClass : Type :=
| Digit
| Lit (c : ascii).

Definition is_digit (c : ascii) : bool :=
  let n := nat_of_ascii c in ((48 <=? n) && (n <=? 57))%nat.

Definition class_ok (k : CharClass) (c : ascii) : bool :=
  match k with
  | Digit => is_digit c
  | Lit l => Ascii.eqb c l
  end.

Fixpoint matches (pat : list CharClass) (s : string) : bool :=
  match pat, s with
  | [], EmptyString => true
  | k :: pat', String c s' => class_ok k c && matches pat' s'
  | _, _ => false
  end.

Definition timestamp_pattern : list CharClass :=
  [Digit; Digit; Digit; Digit; Lit "-"; Digit; Digit; Lit "-"; Digit; Digit;
   Lit " "; Digit; Digit; Lit ":"; Digit; Digit; Lit ":"; Digit; Digit].

(** The session a transition to [k] leaves behind when the icon [shown] was
    resolved and the record went to the console; [fell_back] says whether the
    fallback notice was printed first. *)
Definition world_after_change (w : World) (fell_back : bool) (label : string)
  : World :=
  let notice := if fell_back then ["Icon fallback"] else [] in
  with_console (with_clock_reads w (S (clock_reads w)))
    (console w ++ notice ++ [change_record (clock w (clock_reads w)) label])%list.

Definition self_after_change (self : PrjTray.t) (k : Key) (shown : Image)
  : PrjTray.t :=
  PrjTray.set_tray_icon (PrjTray.set_project self k) shown.

(** The entry [make_menu] adds for one item of the catalog. *)
Definition menu_entry (entry : string * Project.t) : MenuItem :=
  let (id, p) := entry in
  if (1 <? List.length (Project.workpackages p))%nat then
    Item (Project.name p)
      (Menu (map (fun wp_entry : string * (string * option Path.t) =>
                    Item (fst (snd wp_entry)) (OnClick (KTup id (fst wp_entry)))
                      (Some (KTup id (fst wp_entry))) true)
                 (Project.workpackages p)))
      None false
  else Item (Project.name p) (OnClick (KStr id)) (Some (KStr id)) true.

(** The menu in the words of the specification. *)
Definition leaf (text : string) (k : Key) : MenuItem :=
  Item text (OnClick k) (Some k) true.

Definition project_entry (p : Project.t) : MenuItem :=
  if (2 <=? List.length (Project.workpackages p))%nat then
    Item (Project.name p)
      (Menu (map (fun wp : string * (string * option Path.t) =>
                    leaf (fst (snd wp)) (KTup (Project.id p) (fst wp)))
                 (Project.workpackages p)))
      None false
  else leaf (Project.name p) (KStr (Project.id p)).

Definition BuildMenu (catalog : list Project.t) : list MenuItem :=
  (map project_entry catalog
   ++ [SEPARATOR; Item "Quit" (QuitAction "Menu Exit") None false])%list.

Definition is_separator (i : MenuItem) : bool :=
  match i with
  | SEPARATOR => true
  | Item _ _ _ _ => false
  end.

Definition is_quit (i : MenuItem) : bool :=
  match i with
  | Item _ (QuitAction _) _ _ => true
  | _ => false
  end.

(** Every entry of a catalog is stored under the id of its project. *)
Definition keyed_by_id (projects : OrderedDict.t Project.t) : bool :=
  forallb (fun e : string * Project.t => String.eqb (fst e) (Project.id (snd e)))
    projects.

(** The default selection in the words of the specification. *)
Definition DefaultSelection (first_prj : Project.t) : Key :=
  match Project.workpackages first_prj with
  | (first_wp, _) :: _ :: _ => KTup (Project.id first_prj) first_wp
  | _ => KStr (Project.id first_prj)
  end.

(** Worlds and configurations for the examples. *)
Definition sample_clock (n : nat) : datetime := mkdatetime 2023 4 5 6 7 n.

Definition sample_world (icons : list string) (log_ok : bool) : World :=
  {| fs_exists := fun p => existsb (String.eqb p) icons;
     image_file := fun p => if existsb (String.eqb p) icons
                            then Some (Bitmap p) else None;
     appendable := fun _ => log_ok;
     clock := sample_clock;
     clock_reads := 0;
     console := [];
     appended := [] |}.

Definition alpha_beta : Config :=
  [("100-Alpha", ["1-Setup"; "2-Build"]); ("200-Beta", [])].

Definition alpha_single : Config := [("100-Alpha", ["1-Setup"])].

(** The tray right after start-up on [alpha_beta] when only the icon of
    Alpha exists. *)
Definition alpha_icon : Path.t := Path.mk "" ["myIcon_Alpha.ico"].

Definition alpha_beta_projects : OrderedDict.t Project.t :=
  [("100", Project.mk "100" "Alpha" (Some alpha_icon)
             [("1", ("Setup", None)); ("2", ("Build", None))]);
   ("200", Project.mk "200" "Beta" None [])].

Definition alpha_beta_tray : PrjTray.t :=
  {| PrjTray.project := KTup "100" "1";
     PrjTray.logfile := "prjtrx_events.log";
     PrjTray.projects := alpha_beta_projects;
     PrjTray.menu := PrjTray.make_menu alpha_beta_projects;
     PrjTray.fallback_icon := Bitmap "myIcon_Alpha.ico";
     PrjTray.tray_icon := Bitmap "myIcon_Alpha.ico";
     PrjTray.tray_stopped := false |}.

Definition alpha_beta_session (log_ok : bool) : PrjTray.Sess :=
  PrjTray.mkSess alpha_beta_tray (sample_world ["myIcon_Alpha.ico"] log_ok).

(** The keys of the selectable leaves of a menu, top-level ones and those of
    the submenus, in menu order. *)
Definition leaf_key (i : MenuItem) : list Key :=
  match i with
  | Item _ (OnClick k) _ _ => [k]
  | _ => []
  end.

Definition menu_keys (menu : list MenuItem) : list Key :=
  flat_map (fun i : MenuItem =>
              match i with
              | Item _ (Menu items) _ _ => flat_map leaf_key items
              | _ => leaf_key i
              end) menu.

(** The ids a configuration names: the first segments of its keys. *)
Definition config_ids (conf : Config) : list string :=
  flat_map (fun kv : string * list string =>
              match get_id_name (fst kv) with
              | Ok (i, _) => [i]
              | Raise _ => []
              end) conf.

Definition wp_ids (wps : list string) : list string :=
  flat_map (fun wp : string =>
              match get_id_name wp with
              | Ok (i, _) => [i]
              | Raise _ => []
              end) wps.

(** Every icon path stored with a work-package names an existing file. *)
Definition wp_icons_exist (w : World) (d : OrderedDict.t (string * option Path.t))
  : Prop :=
  forall (i n : string) (f : Path.t),
    In (i, (n, Some f)) d -> fs_exists w (Path.to_string f) = true.

(** The keys of the leaves [make_menu] creates for one item of the catalog. *)
Definition entry_keys (entry : string * Project.t) : list Key :=
  let (id, p) := entry in
  if (1 <? List.length (Project.workpackages p))%nat
  then map (fun wp_entry : string * (string * option Path.t) =>
              KTup id (fst wp_entry)) (Project.workpackages p)
  else [KStr id].

(** A configuration one of whose keys has a line feed in its id. *)
Definition line_feed_id : string := "x" ++ newline ++ "y".

Definition alpha_line_feed : Config :=
  [("100-Alpha", ["1-Setup"; "2-Build"]); (line_feed_id ++ "-Beta", [])].

(** ** Splitting and indexing *)

Lemma split_not_nil (sep : ascii) (s : string) : split sep s <> [].
Proof.
  destruct s as [|c r]; simpl; [discriminate|].
  destruct (Ascii.eqb c sep); [discriminate|].
  destruct (split sep r); discriminate.
Qed.

Lemma split_free (sep : ascii) (s : string) :
  contains sep s = false -> split sep s = [s].
Proof.
  induction s as [|c r IH]; simpl; intros H; [reflexivity|].
  apply orb_false_iff in H. destruct H as [Hc Hr].
  rewrite Hc, (IH Hr). reflexivity.
Qed.

Lemma split_app_sep (sep : ascii) (a r : string) :
  contains sep a = false ->
  split sep (a ++ String sep r) = a :: split sep r.
Proof.
  induction a as [|c a IH]; simpl; intros H.
  - rewrite Ascii.eqb_refl. reflexivity.
  - apply orb_false_iff in H. destruct H as [Hc Ha].
    rewrite Hc, (IH Ha). reflexivity.
Qed.

Lemma concat_cons2 (sep : ascii) (a b : string) (r : list string) :
  String.concat (String sep "") (a :: b :: r)
  = a ++ String sep (String.concat (String sep "") (b :: r)).
Proof. reflexivity. Qed.

Lemma split_concat (sep : ascii) (first : string) (rest : list string) :
  forallb (fun s => negb (contains sep s)) (first :: rest) = true ->
  split sep (String.concat (String sep "") (first :: rest)) = first :: rest.
Proof.
  revert first. induction rest as [|b rest IH]; intros first H.
  - simpl in *. apply split_free.
    destruct (contains sep first); [discriminate | reflexivity].
  - change (forallb (fun s => negb (contains sep s)) (first :: b :: rest))
      with (negb (contains sep first)
            && forallb (fun s => negb (contains sep s)) (b :: rest)) in H.
    apply andb_true_iff in H. destruct H as [Hf Hr].
    rewrite concat_cons2.
    rewrite split_app_sep by (destruct (contains sep first); [discriminate | reflexivity]).
    rewrite (IH b Hr). reflexivity.
Qed.

Lemma concat_split (sep : ascii) (s : string) :
  String.concat (String sep "") (split sep s) = s.
Proof.
  induction s as [|c r IH]; [reflexivity|].
  cbn [split].
  pose proof (split_not_nil sep r) as Hnn.
  destruct (Ascii.eqb_spec c sep) as [->|Hne].
  - destruct (split sep r) as [|h t]; [congruence|].
    rewrite concat_cons2. cbn [append]. rewrite IH. reflexivity.
  - destruct (split sep r) as [|h t]; [congruence|].
    destruct t as [|h' t].
    + cbn in *. rewrite IH. reflexivity.
    + rewrite concat_cons2. rewrite concat_cons2 in IH.
      cbn [append]. rewrite IH. reflexivity.
Qed.

Lemma split_parts_free (sep : ascii) (s : string) :
  forallb (fun p => negb (contains sep p)) (split sep s) = true.
Proof.
  induction s as [|c r IH]; simpl; [reflexivity|].
  destruct (Ascii.eqb c sep) eqn:Hc.
  - simpl. exact IH.
  - destruct (split sep r) as [|h t]; simpl.
    + rewrite Hc. reflexivity.
    + simpl in IH. rewrite Hc. exact IH.
Qed.

Lemma getitem_first {A : Type} (a : A) (l : list A) :
  getitem (a :: l) 0 = Ok a.
Proof.
  unfold getitem. cbn [List.length].
  replace (0 <? 0)%Z with false by reflexivity.
  replace (Z.of_nat (S (List.length l)) <=? 0)%Z with false
    by (symmetry; apply Z.leb_gt; lia).
  reflexivity.
Qed.

Lemma last_cons_default {A : Type} (l : list A) (a b : A) :
  last (b :: l) a = last l b.
Proof.
  revert a b. induction l as [|c l IH]; intros a b; [reflexivity|].
  change (last (b :: c :: l) a) with (last (c :: l) a).
  rewrite (IH a c), (IH b c). reflexivity.
Qed.

Lemma nth_error_length_last {A : Type} (l : list A) (a : A) :
  nth_error (a :: l) (List.length l) = Some (last l a).
Proof.
  revert a. induction l as [|b l IH]; intros a; [reflexivity|].
  cbn [List.length nth_error]. rewrite (IH b).
  rewrite last_cons_default. reflexivity.
Qed.

Lemma getitem_last {A : Type} (a : A) (l : list A) :
  getitem (a :: l) (-1) = Ok (last l a).
Proof.
  unfold getitem. cbn [List.length].
  replace (-1 <? 0)%Z with true by reflexivity.
  replace (-1 + Z.of_nat (S (List.length l)))%Z with (Z.of_nat (List.length l)) by lia.
  replace (Z.of_nat (List.length l) <? 0)%Z with false
    by (symmetry; apply Z.ltb_ge; lia).
  replace (Z.of_nat (S (List.length l)) <=? Z.of_nat (List.length l))%Z with false
    by (symmetry; apply Z.leb_gt; lia).
  rewrite Nat2Z.id. cbn [orb]. rewrite nth_error_length_last. reflexivity.
Qed.

Lemma get_id_name_split (prj first : string) (rest : list string) :
  split "-" prj = first :: rest ->
  get_id_name prj = Ok (first, last rest first).
Proof.
  intros H. unfold get_id_name. rewrite H, getitem_first, getitem_last.
  reflexivity.
Qed.

(** ** Identifier parsing *)

(** C6: for every identifier string, [get_id_name] returns, without raising,
    the first and the last of the segments between the dashes, whatever lies
    between them; every string has such a decomposition into dash-free
    segments and any decomposition gives the same answer; a string without a
    dash is its own id and name; ["A-B-C"], ["A-B"] and ["X"] parse to
    (A, C), (A, B) and (X, X). *)
Theorem get_id_name_first_last :
  (forall prj : string,
     exists (first : string) (rest : list string),
       forallb dashfree (first :: rest) = true /\
       prj = String.concat "-" (first :: rest) /\
       get_id_name prj = Ok (first, last rest first)) /\
  (forall (first : string) (rest : list string),
     forallb dashfree (first :: rest) = true ->
     get_id_name (String.concat "-" (first :: rest)) = Ok (first, last rest first)) /\
  (forall s : string, dashfree s = true -> get_id_name s = Ok (s, s)) /\
  get_id_name "A-B-C" = Ok ("A", "C") /\
  get_id_name "A-B" = Ok ("A", "B") /\
  get_id_name "X" = Ok ("X", "X").
Proof.
  split; [|split; [|split; [|repeat split]]].
  - intros prj.
    pose proof (split_not_nil "-" prj) as Hnn.
    destruct (split "-" prj) as [|first rest] eqn:Hs; [congruence|].
    exists first, rest. split; [|split].
    + rewrite <- Hs. apply split_parts_free.
    + rewrite <- Hs. symmetry. apply concat_split.
    + apply get_id_name_split. exact Hs.
  - intros first rest H. apply get_id_name_split.
    apply split_concat. exact H.
  - intros s H. apply (get_id_name_split s (first := s) (rest := [])).
    apply split_free. unfold dashfree in H.
    destruct (contains "-" s); [discriminate | reflexivity].
Qed.

Lemma get_id_name_first_last_witness :
  forallb dashfree ["100"; "x"; "y"; "Alpha"] = true /\
  get_id_name "100-x-y-Alpha" = Ok ("100", "Alpha") /\
  dashfree "Solo" = true /\
  get_id_name "Solo" = Ok ("Solo", "Solo").
Proof.
  split; [reflexivity|]. split.
  - apply (proj1 (proj2 get_id_name_first_last) "100" ["x"; "y"; "Alpha"]).
    reflexivity.
  - split; [reflexivity|].
    apply (proj1 (proj2 (proj2 get_id_name_first_last)) "Solo"). reflexivity.
Defined.

(** ** Keys and the catalog look-up *)

Lemma Key_eqb_eq (a b : Key) : Key_eqb a b = true <-> a = b.
Proof.
  destruct a as [x|x u], b as [y|y v]; simpl; split; intros H;
    try discriminate; try congruence.
  - apply String.eqb_eq in H. congruence.
  - inversion H. apply String.eqb_refl.
  - apply andb_true_iff in H. destruct H as [H1 H2].
    apply String.eqb_eq in H1, H2. congruence.
  - inversion H. rewrite !String.eqb_refl. reflexivity.
Qed.

Lemma Key_eqb_neq (a b : Key) : a <> b -> Key_eqb a b = false.
Proof.
  intros H. destruct (Key_eqb a b) eqn:E; [|reflexivity].
  apply Key_eqb_eq in E. contradiction.
Qed.

Lemma get_project_found (projects : OrderedDict.t Project.t) (k : Key)
  (p : Project.t) :
  OrderedDict.find projects (key_project k) = Some p ->
  PrjTray.get_project projects k = Ok (p, key_wp k).
Proof.
  intros H. unfold PrjTray.get_project, OrderedDict.get.
  destruct k as [x|x u]; simpl in *; rewrite H; reflexivity.
Qed.

Lemma get_project_missing (projects : OrderedDict.t Project.t) (k : Key) :
  OrderedDict.find projects (key_project k) = None ->
  PrjTray.get_project projects k = Raise (KeyError (key_project k)).
Proof.
  intros H. unfold PrjTray.get_project, OrderedDict.get.
  destruct k as [x|x u]; simpl in *; rewrite H; reflexivity.
Qed.

(** [get_wp_icon] follows the precedence of [ResolveIcon]. *)
Lemma get_wp_icon_precedence (p : Project.t) (k : Key) :
  Project.get_wp_icon p (key_wp k)
  = match wp_icon p k with
    | Some path => Some path
    | None => Project.icon p
    end.
Proof.
  unfold Project.get_wp_icon, wp_icon, OrderedDict.mem.
  destruct (key_wp k) as [w|]; [|reflexivity].
  destruct (OrderedDict.find (Project.workpackages p) w) as [[n i]|];
    [|reflexivity].
  simpl. destruct i; reflexivity.
Qed.

Lemma get_id_label (p : Project.t) (k : Key) :
  Project.get_id p (key_wp k) = selection_label p k.
Proof.
  unfold Project.get_id, selection_label, OrderedDict.keys.
  destruct (key_wp k); [reflexivity|].
  destruct (Project.workpackages p) as [|[w v] r]; reflexivity.
Qed.

(** ** One run of [change_project] *)

Lemma change_project_run (s : PrjTray.Sess) (k : Key) (p : Project.t)
  (shown : Image) :
  OrderedDict.find (PrjTray.projects (PrjTray.self s)) (key_project k) = Some p ->
  ResolveIcon p k (PrjTray.fallback_icon (PrjTray.self s)) (PrjTray.world s)
  = Some shown ->
  let w := PrjTray.world s in
  let lf := PrjTray.logfile (PrjTray.self s) in
  let fell_back := match Project.get_wp_icon p (key_wp k) with
                   | None => true
                   | Some _ => false
                   end in
  let label := selection_label p k in
  let w' := world_after_change w fell_back label in
  let self' := self_after_change (PrjTray.self s) k shown in
  PrjTray.change_project k s
  = if appendable w lf
    then (Ok tt,
          PrjTray.mkSess self'
            (with_appended (with_created w' lf)
               (appended w
                ++ [(lf, (change_record (clock w (clock_reads w)) label ++ newline)%string)])%list))
    else (Raise OSError, PrjTray.mkSess self' w').
Proof.
  intros Hfind Hicon. cbv zeta.
  pose proof (get_project_found _ k Hfind) as Hgp.
  pose proof (get_wp_icon_precedence p k) as Hprec.
  pose proof (get_id_label p k) as Hlab.
  unfold ResolveIcon in Hicon.
  destruct s as [self0 w0]. cbn [PrjTray.self PrjTray.world] in *.
  unfold PrjTray.change_project, bind, PrjTray.update_self, modify, gets.
  cbn [PrjTray.self PrjTray.world PrjTray.set_project PrjTray.projects].
  unfold lift_res. rewrite Hgp. rewrite Hlab.
  destruct (Project.get_wp_icon p (key_wp k)) as [path|] eqn:Hget.
  - assert (Himg : image_file w0 (Path.to_string path) = Some shown).
    { destruct (wp_icon p k) as [q|].
      - inversion Hprec; subst. exact Hicon.
      - rewrite <- Hprec in Hicon. exact Hicon. }
    unfold PrjTray.in_world, Image_open, bind, gets, ret.
    cbn [PrjTray.world PrjTray.self]. rewrite Himg.
    cbn [PrjTray.world PrjTray.self PrjTray.set_tray_icon PrjTray.logfile
         PrjTray.set_project].
    unfold PrjTray.log_change, datetime_now, print, append_text, bind, gets,
      modify, ret, raise.
    cbn [appendable with_console with_clock_reads].
    destruct (appendable w0 (PrjTray.logfile self0)); reflexivity.
  - assert (Hsh : shown = PrjTray.fallback_icon self0).
    { destruct (wp_icon p k) as [q|]; [discriminate|].
      rewrite <- Hprec in Hicon. inversion Hicon. reflexivity. }
    subst shown.
    unfold PrjTray.in_world, print, bind, gets, modify, ret.
    cbn [PrjTray.world PrjTray.self PrjTray.set_tray_icon PrjTray.logfile
         PrjTray.set_project PrjTray.fallback_icon].
    unfold PrjTray.log_change, datetime_now, print, append_text, bind, gets,
      modify, ret, raise.
    cbn [appendable with_console with_clock_reads console clock clock_reads
         fs_exists image_file appended].
    unfold world_after_change, with_console, with_clock_reads, with_appended,
      with_created.
    cbn [appendable console clock clock_reads fs_exists image_file appended].
    rewrite <- !app_assoc.
    destruct (appendable w0 (PrjTray.logfile self0)); reflexivity.
Qed.

Lemma resolve_of_get_wp_icon (p : Project.t) (k : Key) (path : Path.t)
  (fallback : Image) (w : World) :
  Project.get_wp_icon p (key_wp k) = Some path ->
  ResolveIcon p k fallback w = image_file w (Path.to_string path).
Proof.
  rewrite get_wp_icon_precedence. unfold ResolveIcon.
  destruct (wp_icon p k) as [q|].
  - intros E. inversion E. reflexivity.
  - intros ->. reflexivity.
Qed.

(** ** The timestamp *)

Lemma matches_app (p1 p2 : list CharClass) (s1 s2 : string) :
  matches p1 s1 = true -> matches p2 s2 = true ->
  matches (p1 ++ p2)%list (s1 ++ s2) = true.
Proof.
  revert s1. induction p1 as [|k p1 IH]; intros s1 H1 H2.
  - destruct s1; [exact H2 | discriminate].
  - destruct s1 as [|c s1]; [discriminate|].
    simpl in *. apply andb_true_iff in H1. destruct H1 as [Hk H1].
    rewrite Hk. simpl. apply IH; assumption.
Qed.

Lemma below_by_table (P : nat -> bool) (bound : nat) :
  forallb P (seq 0 bound) = true -> forall n, n < bound -> P n = true.
Proof.
  intros H n Hn. rewrite forallb_forall in H. apply H.
  apply in_seq. lia.
Qed.

Lemma two_digits (n : nat) :
  n < 100 -> matches [Digit; Digit] (zfill 2 (decimal n)) = true.
Proof.
  apply (below_by_table (fun n => matches [Digit; Digit] (zfill 2 (decimal n)))).
  vm_compute. reflexivity.
Qed.

Lemma four_digits (n : nat) :
  n < 100 * 100 ->
  matches [Digit; Digit; Digit; Digit] (zfill 4 (decimal n)) = true.
Proof.
  apply (below_by_table
           (fun n => matches [Digit; Digit; Digit; Digit] (zfill 4 (decimal n)))).
  vm_compute. reflexivity.
Qed.

Lemma valid_datetime_bounds (t : datetime) :
  valid_datetime t = true ->
  year t < 100 * 100 /\ month t < 100 /\ day t < 100
  /\ hour t < 100 /\ minute t < 100 /\ second t < 100.
Proof.
  unfold valid_datetime. intros H.
  repeat (apply andb_true_iff in H; destruct H as [H ?]).
  repeat match goal with
         | [ E : (_ <=? _)%nat = true |- _ ] => apply Nat.leb_le in E
         | [ E : (_ <? _)%nat = true |- _ ] => apply Nat.ltb_lt in E
         end.
  repeat split; lia.
Qed.

Lemma strftime_shape (t : datetime) :
  valid_datetime t = true -> matches timestamp_pattern (strftime t) = true.
Proof.
  intros H. apply valid_datetime_bounds in H.
  destruct H as (Hy & Hmo & Hd & Hh & Hmi & Hs).
  change timestamp_pattern
    with ([Digit; Digit; Digit; Digit] ++ [Lit "-"] ++ [Digit; Digit]
          ++ [Lit "-"] ++ [Digit; Digit] ++ [Lit " "] ++ [Digit; Digit]
          ++ [Lit ":"] ++ [Digit; Digit] ++ [Lit ":"] ++ [Digit; Digit])%list.
  unfold strftime.
  repeat first
    [ apply matches_app; [ first [ apply four_digits; assumption
                                 | apply two_digits; assumption
                                 | reflexivity ] | ]
    | apply two_digits; assumption ].
Qed.

Lemma string_app_assoc (a b c : string) : (a ++ b) ++ c = a ++ (b ++ c).
Proof.
  induction a as [|x a IH]; simpl; [reflexivity|].
  rewrite IH. reflexivity.
Qed.

Lemma contains_app (c : ascii) (a b : string) :
  contains c (a ++ b) = contains c a || contains c b.
Proof.
  induction a as [|x a IH]; simpl; [reflexivity|].
  rewrite IH. apply orb_assoc.
Qed.

Lemma matches_excludes (c : ascii) (pat : list CharClass) (s : string) :
  forallb (fun k => negb (class_ok k c)) pat = true ->
  matches pat s = true -> contains c s = false.
Proof.
  revert s. induction pat as [|k pat IH]; intros s Hp Hm.
  - destruct s; [reflexivity | discriminate].
  - destruct s as [|a s]; [discriminate|].
    simpl in *. apply andb_true_iff in Hp, Hm.
    destruct Hp as [Hk Hp], Hm as [Ha Hm].
    rewrite (IH s Hp Hm), orb_false_r.
    destruct (Ascii.eqb_spec a c) as [->|]; [|reflexivity].
    rewrite Ha in Hk. discriminate.
Qed.

Lemma change_record_one_line (t : datetime) (label : string) :
  valid_datetime t = true ->
  contains (ascii_of_nat 10) label = false ->
  contains (ascii_of_nat 10) (change_record t label) = false.
Proof.
  intros Ht Hl. unfold change_record.
  rewrite !contains_app, Hl.
  rewrite (matches_excludes (ascii_of_nat 10) timestamp_pattern (strftime t));
    [reflexivity | reflexivity | apply strftime_shape; exact Ht].
Qed.

Lemma log_change_run (lf info : string) (w : World) :
  PrjTray.log_change lf info w
  = let w' := world_after_change w false info in
    if appendable w lf
    then (Ok tt,
          with_appended (with_created w' lf)
            (appended w
             ++ [(lf, (change_record (clock w (clock_reads w)) info ++ newline)%string)])%list)
    else (Raise OSError, w').
Proof.
  unfold PrjTray.log_change, datetime_now, print, append_text, bind, gets,
    modify, ret, raise, world_after_change, change_record.
  cbn [appendable with_console with_clock_reads console clock clock_reads
       fs_exists image_file appended app].
  destruct (appendable w lf); reflexivity.
Qed.

(** ** Selection changes *)

Example startup_alpha_beta :
  fst (startup "prjtrx_events.log" alpha_beta (sample_world ["myIcon_Alpha.ico"] true))
  = Ok alpha_beta_tray.
Proof. vm_compute. reflexivity. Qed.

(** C5: a click that carries the key which is already the current selection
    changes nothing in the tray object (current selection, displayed icon),
    appends nothing to the log and does not read the clock; it returns
    normally after printing the line [No change]. *)
Theorem on_click_current_key_is_noop (s : PrjTray.Sess) (k : Key) :
  PrjTray.project (PrjTray.self s) = k ->
  PrjTray.on_click k s
  = (Ok tt,
     PrjTray.mkSess (PrjTray.self s)
       (with_console (PrjTray.world s)
          (console (PrjTray.world s) ++ ["No change"])%list))
  /\ PrjTray.self (snd (PrjTray.on_click k s)) = PrjTray.self s
  /\ appended (PrjTray.world (snd (PrjTray.on_click k s)))
     = appended (PrjTray.world s)
  /\ clock_reads (PrjTray.world (snd (PrjTray.on_click k s)))
     = clock_reads (PrjTray.world s).
Proof.
  intros Hk.
  assert (E : PrjTray.on_click k s
              = (Ok tt,
                 PrjTray.mkSess (PrjTray.self s)
                   (with_console (PrjTray.world s)
                      (console (PrjTray.world s) ++ ["No change"])%list))).
  { unfold PrjTray.on_click, bind, gets.
    rewrite (proj2 (Key_eqb_eq _ _) Hk).
    reflexivity. }
  rewrite E. repeat split.
Qed.

Lemma on_click_current_key_is_noop_witness :
  PrjTray.on_click (KTup "100" "1") (alpha_beta_session true)
  = (Ok tt,
     PrjTray.mkSess alpha_beta_tray
       (with_console (sample_world ["myIcon_Alpha.ico"] true) ["No change"])).
Proof.
  exact (proj1 (on_click_current_key_is_noop (alpha_beta_session true)
                  (k := KTup "100" "1") eq_refl)).
Defined.



(** ** The log *)

(** C3, as stated, fails: with a log file that cannot be appended to, the
    click handler does not return normally but raises [OSError], and at
    start-up the same exception leaves the constructor and the script. *)
Lemma log_failure_is_not_contained :
  fst (PrjTray.on_click (KStr "200") (alpha_beta_session false)) = Raise OSError
  /\ fst (startup "prjtrx_events.log" alpha_beta
            (sample_world ["myIcon_Alpha.ico"] false)) = Raise OSError.
Proof. split; vm_compute; reflexivity. Qed.

Lemma PrjTray_init_log_fails
  (logfile : string) (projects : OrderedDict.t Project.t) (default : Key)
  (p : Project.t) (path : Path.t) (img : Image) (w : World) :
  OrderedDict.find projects (key_project default) = Some p ->
  Project.get_wp_icon p (key_wp default) = Some path ->
  image_file w (Path.to_string path) = Some img ->
  appendable w logfile = false ->
  PrjTray.init logfile projects default w
  = (Raise OSError, world_after_change w false (selection_label p default)).
Proof.
  intros Hfind Hget Himg Happ.
  unfold PrjTray.init. unfold bind at 1. unfold lift_res at 1.
  rewrite (get_project_found _ default Hfind).
  unfold bind at 1. rewrite Hget.
  unfold Image_open, bind, gets, ret. rewrite Himg.
  match goal with
  | [ |- context [ PrjTray.change_project default ?s0 ] ] =>
      pose proof (@change_project_run s0 default p img Hfind) as Hrun
  end.
  cbn [PrjTray.self PrjTray.world PrjTray.fallback_icon PrjTray.logfile] in Hrun.
  rewrite (@resolve_of_get_wp_icon p default path img w Hget) in Hrun.
  specialize (Hrun Himg). rewrite Happ, Hget in Hrun.
  rewrite Hrun. reflexivity.
Qed.

Lemma last_console_after_change (w : World) (label : string) :
  last (console (world_after_change w false label)) ""
  = change_record (clock w (clock_reads w)) label.
Proof.
  unfold world_after_change. cbn [with_console console app].
  apply last_last.
Qed.

(** C3, amended: when the log file cannot be opened for appending while a
    selection change writes its record, nothing in the program catches the
    [OSError]: [change_project] and the click handler raise it, and at
    start-up so do the constructor and the script.  By then the record has
    been printed to the console and nothing has been appended to the log;
    in [change_project] the current selection is the new key and the
    displayed icon the resolved one, the tray object being the one a
    successful change would have left. *)
Theorem log_failure_raises_after_update :
  (forall (s : PrjTray.Sess) (k : Key) (p : Project.t) (shown : Image),
     PrjTray.project (PrjTray.self s) <> k ->
     OrderedDict.find (PrjTray.projects (PrjTray.self s)) (key_project k)
     = Some p ->
     ResolveIcon p k (PrjTray.fallback_icon (PrjTray.self s)) (PrjTray.world s)
     = Some shown ->
     appendable (PrjTray.world s) (PrjTray.logfile (PrjTray.self s)) = false ->
     exists s' : PrjTray.Sess,
       PrjTray.change_project k s = (Raise OSError, s')
       /\ PrjTray.on_click k s = (Raise OSError, s')
       /\ PrjTray.project (PrjTray.self s') = k
       /\ PrjTray.tray_icon (PrjTray.self s') = shown
       /\ PrjTray.self s' = self_after_change (PrjTray.self s) k shown
       /\ appended (PrjTray.world s') = appended (PrjTray.world s)
       /\ last (console (PrjTray.world s')) ""
          = change_record
              (clock (PrjTray.world s) (clock_reads (PrjTray.world s)))
              (selection_label p k))
  /\
  (forall (logfile : string) (projects : OrderedDict.t Project.t)
          (default : Key) (p : Project.t) (path : Path.t) (img : Image)
          (w : World),
     OrderedDict.find projects (key_project default) = Some p ->
     Project.get_wp_icon p (key_wp default) = Some path ->
     image_file w (Path.to_string path) = Some img ->
     appendable w logfile = false ->
     exists w' : World,
       PrjTray.init logfile projects default w = (Raise OSError, w')
       /\ appended w' = appended w
       /\ last (console w') ""
          = change_record (clock w (clock_reads w)) (selection_label p default))
  /\
  (forall (logfile : string) (conf : Config) (w : World)
          (projects : OrderedDict.t Project.t) (default : Key)
          (p : Project.t) (path : Path.t) (img : Image),
     build_projects conf w = (Ok projects, w) ->
     default_selection projects = Ok default ->
     OrderedDict.find projects (key_project default) = Some p ->
     Project.get_wp_icon p (key_wp default) = Some path ->
     image_file w (Path.to_string path) = Some img ->
     appendable w logfile = false ->
     exists w' : World,
       startup logfile conf w = (Raise OSError, w')
       /\ appended w' = appended w
       /\ last (console w') ""
          = change_record (clock w (clock_reads w)) (selection_label p default)).
Proof.
  split; [|split].
  - intros s k p shown Hne Hfind Hicon Happ.
    pose proof (change_project_run s k Hfind Hicon) as Hrun. cbv zeta in Hrun.
    rewrite Happ in Hrun.
    eexists. split; [exact Hrun|]. split.
    + unfold PrjTray.on_click, bind, gets.
      rewrite (Key_eqb_neq Hne). exact Hrun.
    + repeat split.
      cbn [PrjTray.world world_after_change with_console console].
      rewrite app_assoc. apply last_last.
  - intros logfile projects default p path img w Hfind Hget Himg Happ.
    rewrite (@PrjTray_init_log_fails logfile projects default p path img w
               Hfind Hget Himg Happ).
    eexists. split; [reflexivity|]. split; [reflexivity|].
    apply last_console_after_change.
  - intros logfile conf w projects default p path img
           Hb Hd Hfind Hget Himg Happ.
    unfold startup. unfold bind at 1. rewrite Hb.
    unfold bind at 1. unfold lift_res. rewrite Hd.
    rewrite (@PrjTray_init_log_fails logfile projects default p path img w
               Hfind Hget Himg Happ).
    eexists. split; [reflexivity|]. split; [reflexivity|].
    apply last_console_after_change.
Qed.

Lemma log_failure_raises_after_update_witness :
  (exists s' : PrjTray.Sess,
     PrjTray.change_project (KTup "100" "2") (alpha_beta_session false)
     = (Raise OSError, s')
     /\ PrjTray.on_click (KTup "100" "2") (alpha_beta_session false)
        = (Raise OSError, s')
     /\ PrjTray.project (PrjTray.self s') = KTup "100" "2"
     /\ PrjTray.tray_icon (PrjTray.self s') = Bitmap "myIcon_Alpha.ico"
     /\ PrjTray.self s'
        = self_after_change alpha_beta_tray (KTup "100" "2")
            (Bitmap "myIcon_Alpha.ico")
     /\ appended (PrjTray.world s') = []
     /\ last (console (PrjTray.world s')) ""
        = "2023-04-05 06:07:00 -- changed <100:2>")
  /\
  (exists w' : World,
     PrjTray.init "prjtrx_events.log" alpha_beta_projects (KTup "100" "1")
       (sample_world ["myIcon_Alpha.ico"] false) = (Raise OSError, w')
     /\ appended w' = []
     /\ last (console w') "" = "2023-04-05 06:07:00 -- changed <100:1>")
  /\
  (exists w' : World,
     startup "prjtrx_events.log" alpha_beta
       (sample_world ["myIcon_Alpha.ico"] false) = (Raise OSError, w')
     /\ appended w' = []
     /\ last (console w') "" = "2023-04-05 06:07:00 -- changed <100:1>").
Proof.
  split; [|split].
  - apply (proj1 log_failure_raises_after_update
             (alpha_beta_session false) (KTup "100" "2")
             (Project.mk "100" "Alpha" (Some alpha_icon)
                [("1", ("Setup", None)); ("2", ("Build", None))])
             (Bitmap "myIcon_Alpha.ico")).
    + discriminate.
    + reflexivity.
    + reflexivity.
    + reflexivity.
  - apply (proj1 (proj2 log_failure_raises_after_update)
             "prjtrx_events.log" alpha_beta_projects (KTup "100" "1")
             (Project.mk "100" "Alpha" (Some alpha_icon)
                [("1", ("Setup", None)); ("2", ("Build", None))])
             alpha_icon (Bitmap "myIcon_Alpha.ico")
             (sample_world ["myIcon_Alpha.ico"] false)); reflexivity.
  - apply (proj2 (proj2 log_failure_raises_after_update)
             "prjtrx_events.log" alpha_beta
             (sample_world ["myIcon_Alpha.ico"] false)
             alpha_beta_projects (KTup "100" "1")
             (Project.mk "100" "Alpha" (Some alpha_icon)
                [("1", ("Setup", None)); ("2", ("Build", None))])
             alpha_icon (Bitmap "myIcon_Alpha.ico")).
    + vm_compute. reflexivity.
    + reflexivity.
    + reflexivity.
    + reflexivity.
    + reflexivity.
    + reflexivity.
Defined.

(** C7, as stated, fails: ids come unfiltered from the configuration keys,
    and for a key whose id holds a line feed the record of the change to
    that project is spread over two lines. *)
Lemma change_record_with_line_feed_spans_lines :
  exists (tray : PrjTray.t) (w : World),
    startup "prjtrx_events.log" alpha_line_feed
      (sample_world ["myIcon_Alpha.ico"] true) = (Ok tray, w)
    /\ In (KStr line_feed_id) (menu_keys (PrjTray.menu tray))
    /\ fst (PrjTray.on_click (KStr line_feed_id) (PrjTray.mkSess tray w)) = Ok tt
    /\ appended (PrjTray.world
                   (snd (PrjTray.on_click (KStr line_feed_id)
                           (PrjTray.mkSess tray w))))
       = (appended w
          ++ [("prjtrx_events.log",
               ("2023-04-05 06:07:01 -- changed <x" ++ newline ++ "y>"
                ++ newline)%string)])%list
    /\ contains (ascii_of_nat 10)
         ("2023-04-05 06:07:01 -- changed <x" ++ newline ++ "y>") = true.
Proof.
  eexists. eexists. split; [lazy; reflexivity|].
  split; [lazy; right; right; left; reflexivity|].
  split; [lazy; reflexivity|].
  split; lazy; reflexivity.
Qed.

(** C7, amended: every record that [log_change] writes is one append of the
    text [<timestamp> -- changed <label>] followed by a newline, the label
    standing between angle brackets; for a clock in the years from 1000 on
    the timestamp has the shape [YYYY-MM-DD HH:MM:SS]; the record is one
    line when the label holds no line feed.  For a selection change the
    label is the project's id when the key names no work-package and the
    project has none, the project's id, a colon and the first
    work-package's id when the key names no work-package and the project has
    some, and the project's id, a colon and the named work-package's id
    otherwise. *)
Theorem change_record_format :
  (forall (lf info : string) (w : World),
     appendable w lf = true ->
     valid_datetime (clock w (clock_reads w)) = true ->
     1000 <= year (clock w (clock_reads w)) ->
     exists ts : string,
       ts = strftime (clock w (clock_reads w))
       /\ matches timestamp_pattern ts = true
       /\ fst (PrjTray.log_change lf info w) = Ok tt
       /\ appended (snd (PrjTray.log_change lf info w))
          = (appended w
             ++ [(lf, (ts ++ " -- changed <" ++ info ++ ">" ++ newline)%string)])%list
       /\ (contains (ascii_of_nat 10) info = false ->
           contains (ascii_of_nat 10) (ts ++ " -- changed <" ++ info ++ ">")
           = false))
  /\
  (forall (s : PrjTray.Sess) (k : Key) (p : Project.t) (shown : Image),
     OrderedDict.find (PrjTray.projects (PrjTray.self s)) (key_project k) = Some p ->
     ResolveIcon p k (PrjTray.fallback_icon (PrjTray.self s)) (PrjTray.world s)
     = Some shown ->
     appendable (PrjTray.world s) (PrjTray.logfile (PrjTray.self s)) = true ->
     valid_datetime (clock (PrjTray.world s) (clock_reads (PrjTray.world s)))
     = true ->
     1000 <= year (clock (PrjTray.world s) (clock_reads (PrjTray.world s))) ->
     exists ts label : string,
       appended (PrjTray.world (snd (PrjTray.change_project k s)))
       = (appended (PrjTray.world s)
          ++ [(PrjTray.logfile (PrjTray.self s),
               (ts ++ " -- changed <" ++ label ++ ">" ++ newline)%string)])%list
       /\ matches timestamp_pattern ts = true
       /\ (key_wp k = None -> Project.workpackages p = [] ->
           label = Project.id p)
       /\ (forall first_wp v rest,
             key_wp k = None ->
             Project.workpackages p = (first_wp, v) :: rest ->
             label = (Project.id p ++ ":" ++ first_wp)%string)
       /\ (forall wp, key_wp k = Some wp ->
             label = (Project.id p ++ ":" ++ wp)%string)
       /\ (contains (ascii_of_nat 10) label = false ->
           contains (ascii_of_nat 10) (ts ++ " -- changed <" ++ label ++ ">")
           = false)).
Proof.
  split.
  - intros lf info w Happ Ht _.
    exists (strftime (clock w (clock_reads w))).
    rewrite log_change_run. cbv zeta. rewrite Happ.
    split; [reflexivity|]. split; [apply strftime_shape; exact Ht|].
    split; [reflexivity|]. split.
    + cbn [snd with_appended appended]. unfold change_record.
      rewrite !string_app_assoc. reflexivity.
    + intros Hl. apply (@change_record_one_line _ _ Ht Hl).
  - intros s k p shown Hfind Hicon Happ Ht _.
    pose proof (change_project_run s k Hfind Hicon) as Hrun. cbv zeta in Hrun.
    rewrite Happ in Hrun. rewrite Hrun.
    exists (strftime (clock (PrjTray.world s) (clock_reads (PrjTray.world s)))).
    exists (selection_label p k).
    split.
    { cbn [snd PrjTray.world with_appended appended]. unfold change_record.
      rewrite !string_app_assoc. reflexivity. }
    split; [apply strftime_shape; exact Ht|].
    unfold selection_label, OrderedDict.keys.
    split; [intros -> ->; reflexivity|].
    split; [intros first_wp v rest -> ->; reflexivity|].
    split; [intros wp ->; reflexivity|].
    intros Hl. destruct (key_wp k) as [wp|] eqn:Hk.
    + apply (@change_record_one_line _ _ Ht Hl).
    + apply (@change_record_one_line _ _ Ht Hl).
Qed.

Lemma change_record_format_witness :
  (exists ts : string,
     ts = "2023-04-05 06:07:00"
     /\ matches timestamp_pattern ts = true
     /\ fst (PrjTray.log_change "prjtrx_events.log" "QUIT (SIGTERM)"
               (sample_world [] true)) = Ok tt
     /\ appended (snd (PrjTray.log_change "prjtrx_events.log" "QUIT (SIGTERM)"
                         (sample_world [] true)))
        = [("prjtrx_events.log",
            (ts ++ " -- changed <" ++ "QUIT (SIGTERM)" ++ ">" ++ newline)%string)]
     /\ (contains (ascii_of_nat 10) "QUIT (SIGTERM)" = false ->
         contains (ascii_of_nat 10)
           (ts ++ " -- changed <" ++ "QUIT (SIGTERM)" ++ ">") = false))
  /\
  (exists ts label : string,
     appended (PrjTray.world
                 (snd (PrjTray.change_project (KStr "100") (alpha_beta_session true))))
     = [("prjtrx_events.log",
         (ts ++ " -- changed <" ++ label ++ ">" ++ newline)%string)]
     /\ matches timestamp_pattern ts = true
     /\ label = "100:1"
     /\ contains (ascii_of_nat 10) (ts ++ " -- changed <" ++ label ++ ">")
        = false).
Proof.
  split.
  - apply (proj1 change_record_format "prjtrx_events.log" "QUIT (SIGTERM)"
             (sample_world [] true)); [reflexivity | reflexivity | simpl; lia].
  - assert (Hy : 1000 <= year (clock (PrjTray.world (alpha_beta_session true))
                                 (clock_reads (PrjTray.world (alpha_beta_session true)))))
      by (simpl; lia).
    destruct (proj2 change_record_format (alpha_beta_session true) (KStr "100")
                (Project.mk "100" "Alpha" (Some alpha_icon)
                   [("1", ("Setup", None)); ("2", ("Build", None))])
                (Bitmap "myIcon_Alpha.ico")
                eq_refl eq_refl eq_refl eq_refl Hy)
      as (ts & label & Happ & Hts & _ & Hfirst & _ & Hline).
    assert (Hlabel : label = "100:1")
      by (apply (Hfirst "1" ("Setup", None) [("2", ("Build", None))]);
          reflexivity).
    exists ts, label. split; [exact Happ|]. split; [exact Hts|].
    split; [exact Hlabel|].
    apply Hline. rewrite Hlabel. reflexivity.
Defined.

(** ** The icon probe *)

Lemma rfind_absent (c : ascii) (s : string) :
  contains c s = false -> rfind c s = None.
Proof.
  induction s as [|a s IH]; simpl; intros H; [reflexivity|].
  apply orb_false_iff in H. destruct H as [Ha Hs].
  rewrite (IH Hs), Ha. reflexivity.
Qed.

Lemma split_cons_other (sep c : ascii) (r : string) :
  Ascii.eqb c sep = false ->
  exists h t, split sep r = h :: t /\ split sep (String c r) = String c h :: t.
Proof.
  intros Hc. pose proof (split_not_nil sep r) as Hnn.
  destruct (split sep r) as [|h t] eqn:E; [congruence|].
  exists h, t. split; [reflexivity|].
  cbn [split]. rewrite Hc, E. reflexivity.
Qed.

Lemma last_in_cons {A : Type} (x : A) (l : list A) (d : A) :
  In (last (x :: l) d) (x :: l).
Proof.
  revert x. induction l as [|y l IH]; intros x; [left; reflexivity|].
  change (last (x :: y :: l) d) with (last (y :: l) d).
  right. apply IH.
Qed.

(** The probed path always has a name: the prefix is part of its first
    component. *)
Lemma icon_candidate_has_name (X : string) :
  String.eqb (Path.name (Path.of_string ("myIcon_" ++ X))) "" = false.
Proof.
  unfold Path.name, Path.of_string. cbn [Path.parts].
  assert (H : exists h t, split "/" ("myIcon_" ++ X) = String "m" h :: t).
  { cbn [append].
    repeat match goal with
           | [ |- exists h t, split ?sep (String ?c ?r) = _ ] =>
               let Hs := fresh "Hs" in
               destruct (@split_cons_other sep c r eq_refl) as (? & ? & _ & Hs);
               rewrite Hs; clear Hs
           end.
    eexists. eexists. reflexivity. }
  destruct H as (h & t & ->).
  cbn [filter]. change (Path.keep_part (String "m" h)) with true. cbv iota.
  pose proof (last_in_cons (String "m" h) (filter Path.keep_part t) "") as Hin.
  destruct Hin as [<-|Hin]; [reflexivity|].
  apply filter_In in Hin. destruct Hin as [_ Hk].
  unfold Path.keep_part in Hk. apply negb_true_iff in Hk.
  apply orb_false_iff in Hk. exact (proj1 Hk).
Qed.

Lemma get_image_path_returns (X : string) (w : World) :
  exists r : option Path.t, get_image_path X w = (Ok r, w).
Proof.
  unfold get_image_path, bind, lift_res, Path.with_suffix.
  rewrite icon_candidate_has_name.
  unfold path_exists, gets, ret.
  match goal with
  | [ |- context [ if ?b then _ else _ ] ] => destruct b
  end; eexists; reflexivity.
Qed.

(** For a display name without a dot and without a slash the probed file is
    the prefix, the name and the extension. *)
Lemma get_image_path_plain_name (X : string) (w : World) :
  contains "." X = false -> contains "/" X = false ->
  get_image_path X w
  = (Ok (if fs_exists w ("myIcon_" ++ X ++ ".ico")
         then Some (Path.mk "" ["myIcon_" ++ X ++ ".ico"])
         else None), w).
Proof.
  intros Hdot Hslash.
  assert (Hs : split "/" ("myIcon_" ++ X) = ["myIcon_" ++ X]).
  { apply split_free. rewrite contains_app, Hslash. reflexivity. }
  assert (Hr : rfind "." ("myIcon_" ++ X) = None).
  { apply rfind_absent. rewrite contains_app, Hdot. reflexivity. }
  unfold get_image_path, bind, lift_res, Path.with_suffix.
  rewrite icon_candidate_has_name.
  unfold Path.suffix, Path.suffix_of_name, Path.name, Path.of_string.
  cbn [Path.parts Path.root]. rewrite Hs.
  change (filter Path.keep_part ["myIcon_" ++ X]) with ["myIcon_" ++ X].
  cbn [last]. rewrite Hr.
  cbn [String.eqb removelast app Path.leading_slashes append Ascii.eqb].
  unfold path_exists, gets, ret, Path.to_string. cbn [Path.root Path.parts].
  change (String.concat "/" [String "m" (String "y" (String "I" (String "c"
            (String "o" (String "n" (String "_" X)))))) ++ ".ico"])
    with ("myIcon_" ++ X ++ ".ico").
  cbn [append].
  destruct (fs_exists w _); reflexivity.
Qed.

(** ** Building the catalog *)

Lemma get_id_name_returns (prj : string) :
  exists i n : string, get_id_name prj = Ok (i, n).
Proof.
  pose proof (split_not_nil "-" prj) as Hnn.
  destruct (split "-" prj) as [|first rest] eqn:Hs; [congruence|].
  exists first, (last rest first). apply get_id_name_split. exact Hs.
Qed.

Lemma workpackages_loop_returns (wps : list string)
  (d : OrderedDict.t (string * option Path.t)) (w : World) :
  exists d', for_each wps d (fun d wp =>
               '(wp_id, wp_name) <- lift_res (get_id_name wp) ;;
               wp_icon <- get_image_path wp_name ;;
               ret (OrderedDict.set d wp_id (wp_name, wp_icon))) w
             = (Ok d', w).
Proof.
  revert d. induction wps as [|wp wps IH]; intros d.
  - exists d. reflexivity.
  - cbn [for_each]. unfold bind at 1. unfold bind at 1.
    destruct (get_id_name_returns wp) as (i & n & Hp).
    unfold lift_res. rewrite Hp.
    unfold bind at 1.
    destruct (get_image_path_returns n w) as (r & Hr). rewrite Hr.
    unfold ret at 1. apply IH.
Qed.

Lemma Project_init_returns (identifier : string) (wps : list string) (w : World) :
  exists p : Project.t,
    Project.init identifier wps w = (Ok p, w)
    /\ get_id_name identifier = Ok (Project.id p, Project.name p).
Proof.
  unfold Project.init.
  destruct (get_id_name_returns identifier) as (i & n & Hp).
  unfold bind at 1. unfold lift_res at 1. rewrite Hp.
  unfold bind at 1.
  destruct (get_image_path_returns n w) as (r & Hr). rewrite Hr.
  unfold bind at 1.
  destruct (workpackages_loop_returns wps OrderedDict.empty w) as (d & Hd).
  rewrite Hd. eexists. split; reflexivity.
Qed.

Lemma set_keyed_by_id (projects : OrderedDict.t Project.t) (p : Project.t) :
  keyed_by_id projects = true ->
  keyed_by_id (OrderedDict.set projects (Project.id p) p) = true.
Proof.
  unfold keyed_by_id.
  induction projects as [|[k v] r IH]; intros H.
  - simpl. rewrite String.eqb_refl. reflexivity.
  - cbn [forallb fst snd] in H. apply andb_true_iff in H. destruct H as [Hk Hr].
    cbn [OrderedDict.set].
    destruct (String.eqb_spec k (Project.id p)) as [->|Hne].
    + cbn [forallb fst snd]. rewrite String.eqb_refl, Hr. reflexivity.
    + cbn [forallb fst snd]. rewrite Hk, (IH Hr). reflexivity.
Qed.

Lemma projects_loop_returns (conf : Config) (acc : OrderedDict.t Project.t)
  (w : World) :
  keyed_by_id acc = true ->
  exists projects,
    for_each conf acc (fun projects (kv : string * list string) =>
      let (k, v) := kv in
      p <- Project.init k v ;;
      ret (OrderedDict.set projects (Project.id p) p)) w
    = (Ok projects, w)
    /\ keyed_by_id projects = true.
Proof.
  revert acc. induction conf as [|[k v] conf IH]; intros acc Hacc.
  - exists acc. split; [reflexivity | exact Hacc].
  - cbn [for_each]. unfold bind at 1. unfold bind at 1.
    destruct (Project_init_returns k v w) as (p & Hp & _). rewrite Hp.
    unfold ret at 1. apply IH. apply set_keyed_by_id. exact Hacc.
Qed.

(** The loop over the configuration never raises, leaves the world as it
    was, and stores every project under its id. *)
Lemma build_projects_returns (conf : Config) (w : World) :
  exists projects,
    build_projects conf w = (Ok projects, w) /\ keyed_by_id projects = true.
Proof.
  apply projects_loop_returns. reflexivity.
Qed.

(** ** The default selection *)

Lemma default_selection_several (k : string) (p : Project.t)
  (rest : OrderedDict.t Project.t) :
  (1 <? List.length (Project.workpackages p))%nat = true ->
  default_selection ((k, p) :: rest) = Ok (DefaultSelection p).
Proof.
  unfold default_selection, DefaultSelection. cbn [OrderedDict.first_value res_bind].
  intros H. rewrite H.
  destruct (Project.workpackages p) as [|[w1 v1] [|e2 r]]; try discriminate.
  reflexivity.
Qed.

Lemma default_selection_at_most_one (k : string) (p : Project.t)
  (rest : OrderedDict.t Project.t) :
  (1 <? List.length (Project.workpackages p))%nat = false ->
  default_selection ((k, p) :: rest) = Ok (KStr (Project.name p)).
Proof.
  unfold default_selection. cbn [OrderedDict.first_value res_bind].
  intros H. rewrite H. reflexivity.
Qed.

Lemma build_alpha_single (w : World) :
  exists i1 i2 : option Path.t,
    build_projects alpha_single w
    = (Ok [("100", Project.mk "100" "Alpha" i1 [("1", ("Setup", i2))])], w).
Proof.
  unfold build_projects, alpha_single. cbn [for_each].
  unfold Project.init. cbn [for_each].
  unfold bind, lift_res, ret.
  change (get_id_name "100-Alpha") with (Ok ("100", "Alpha")).
  change (get_id_name "1-Setup") with (Ok ("1", "Setup")).
  cbv iota beta.
  destruct (get_image_path_returns "Alpha" w) as (i1 & H1). rewrite H1.
  destruct (get_image_path_returns "Setup" w) as (i2 & H2). rewrite H2.
  exists i1, i2. reflexivity.
Qed.

(** C1: on the configuration [{"100-Alpha": ["1-Setup"]}] the catalog holds
    one project, stored under its id [100], and the computed default is the
    string [Alpha], the project's name, where the rule of the specification
    gives the key of id [100]; the computed default is no key of the
    catalog. *)
Theorem default_selection_single_wp_is_name :
  forall w : World,
    exists (projects : OrderedDict.t Project.t) (first_prj : Project.t),
      build_projects alpha_single w = (Ok projects, w)
      /\ projects = [("100", first_prj)]
      /\ Project.id first_prj = "100"
      /\ List.length (Project.workpackages first_prj) = 1
      /\ default_selection projects = Ok (KStr "Alpha")
      /\ DefaultSelection first_prj = KStr "100"
      /\ valid_key projects (KStr "Alpha") = false
      /\ valid_key projects (KStr "100") = true.
Proof.
  intros w. destruct (build_alpha_single w) as (i1 & i2 & Hb).
  eexists. eexists. split; [exact Hb|].
  repeat split.
Qed.

(** C2: on the configuration [{"100-Alpha": ["1-Setup"]}] start-up raises
    [KeyError] for [Alpha] whatever files exist, because the default is the
    project's name and the catalog is keyed by id; and on a configuration
    whose default is a valid key but has no icon file, [Image.open] is
    handed [None] and raises. *)
Theorem startup_default_raises :
  (forall (logfile : string) (w : World),
     startup logfile alpha_single w = (Raise (KeyError "Alpha"), w))
  /\ fst (startup "prjtrx_events.log" alpha_beta (sample_world [] true))
     = Raise AttributeError.
Proof.
  split.
  - intros logfile w. unfold startup.
    destruct (build_alpha_single w) as (i1 & i2 & Hb).
    unfold bind at 1. rewrite Hb. reflexivity.
  - vm_compute. reflexivity.
Qed.

(** C9: for the display name [v1.2] the probed file is [myIcon_v1.ico], not
    [myIcon_v1.2.ico]: [with_suffix] replaces what follows the last dot of
    the name.  The result depends on the first file alone, and the second
    one is not found even when it is the only file there is. *)
Theorem get_image_path_dotted_name :
  (forall w : World,
     get_image_path "v1.2" w
     = (Ok (if fs_exists w "myIcon_v1.ico"
            then Some (Path.mk "" ["myIcon_v1.ico"])
            else None), w))
  /\ fst (get_image_path "v1.2" (sample_world ["myIcon_v1.2.ico"] true)) = Ok None
  /\ fst (get_image_path "v1.2" (sample_world ["myIcon_v1.ico"] true))
     = Ok (Some (Path.mk "" ["myIcon_v1.ico"])).
Proof.
  split; [|split; vm_compute; reflexivity].
  intros w. unfold get_image_path, bind, lift_res.
  change (Path.with_suffix (Path.of_string ("myIcon_" ++ "v1.2")) ".ico")
    with (Ok (Path.mk "" ["myIcon_v1.ico"])).
  cbv iota beta. unfold path_exists, gets, ret.
  change (Path.to_string (Path.mk "" ["myIcon_v1.ico"])) with "myIcon_v1.ico".
  destruct (fs_exists w "myIcon_v1.ico"); reflexivity.
Qed.

(** ** The menu *)

Lemma fold_left_snoc {A B : Type} (F : list A -> B -> list A) (g : B -> A)
  (l : list B) (acc : list A) :
  (forall acc x, F acc x = (acc ++ [g x])%list) ->
  fold_left F l acc = (acc ++ map g l)%list.
Proof.
  intros HF. revert acc. induction l as [|x l IH]; intros acc.
  - simpl. rewrite app_nil_r. reflexivity.
  - cbn [fold_left map]. rewrite HF, IH, <- app_assoc. reflexivity.
Qed.

Lemma make_menu_entries (projects : OrderedDict.t Project.t) :
  PrjTray.make_menu projects
  = (map menu_entry projects
     ++ [SEPARATOR; Item "Quit" (QuitAction "Menu Exit") None false])%list.
Proof.
  unfold PrjTray.make_menu.
  rewrite (@fold_left_snoc _ _ _ menu_entry).
  - cbn [app]. rewrite <- !app_assoc. reflexivity.
  - intros acc [id p]. unfold menu_entry.
    destruct (1 <? List.length (Project.workpackages p))%nat; [|reflexivity].
    rewrite (@fold_left_snoc _ _ _
               (fun wp_entry : string * (string * option Path.t) =>
                  Item (fst (snd wp_entry)) (OnClick (KTup id (fst wp_entry)))
                    (Some (KTup id (fst wp_entry))) true)).
    + reflexivity.
    + intros acc' [wp_id wp]. reflexivity.
Qed.

Lemma menu_entry_keyed (k : string) (p : Project.t) :
  String.eqb k (Project.id p) = true -> menu_entry (k, p) = project_entry p.
Proof.
  intros H. apply String.eqb_eq in H. subst k.
  unfold menu_entry, project_entry, leaf.
  replace (2 <=? List.length (Project.workpackages p))%nat
    with (1 <? List.length (Project.workpackages p))%nat by reflexivity.
  reflexivity.
Qed.

Lemma make_menu_BuildMenu (projects : OrderedDict.t Project.t) :
  keyed_by_id projects = true ->
  PrjTray.make_menu projects = BuildMenu (map snd projects).
Proof.
  intros Hk. rewrite make_menu_entries. unfold BuildMenu. f_equal.
  unfold keyed_by_id in Hk.
  induction projects as [|[k p] r IH]; [reflexivity|].
  cbn [forallb fst snd] in Hk. apply andb_true_iff in Hk. destruct Hk as [H1 H2].
  cbn [map snd]. rewrite (@menu_entry_keyed k p H1), (IH H2). reflexivity.
Qed.

Lemma project_entry_plain (p : Project.t) :
  is_separator (project_entry p) = false /\ is_quit (project_entry p) = false.
Proof.
  unfold project_entry, leaf.
  destruct (2 <=? List.length (Project.workpackages p))%nat; split; reflexivity.
Qed.

Lemma filter_entries_nil (f : MenuItem -> bool) (catalog : list Project.t) :
  (forall p, f (project_entry p) = false) ->
  filter f (map project_entry catalog) = [].
Proof.
  intros Hf. induction catalog as [|p r IH]; [reflexivity|].
  cbn [map filter]. rewrite Hf. exact IH.
Qed.

(** C8: for the catalog built from any configuration (the build never
    raises) the menu is, in catalog order, one entry per project, a leaf
    keyed by the project's id when the project has at most one
    work-package and otherwise a submenu with one leaf per work-package in
    order, each keyed by the pair of the project's and the work-package's
    id, followed by a separator and the Quit entry; the separator and the
    Quit entry occur once each, at the end. *)
Theorem make_menu_shape (conf : Config) (w : World) :
  exists projects : OrderedDict.t Project.t,
    build_projects conf w = (Ok projects, w)
    /\ PrjTray.make_menu projects
       = (map project_entry (map snd projects)
          ++ [SEPARATOR; Item "Quit" (QuitAction "Menu Exit") None false])%list
    /\ (forall (i : nat) (p : Project.t),
          nth_error (map snd projects) i = Some p ->
          nth_error (PrjTray.make_menu projects) i = Some (project_entry p))
    /\ (forall p : Project.t,
          List.length (Project.workpackages p) <= 1 ->
          project_entry p = leaf (Project.name p) (KStr (Project.id p)))
    /\ (forall p : Project.t,
          2 <= List.length (Project.workpackages p) ->
          project_entry p
          = Item (Project.name p)
              (Menu (map (fun wp : string * (string * option Path.t) =>
                            leaf (fst (snd wp)) (KTup (Project.id p) (fst wp)))
                         (Project.workpackages p)))
              None false)
    /\ List.length (PrjTray.make_menu projects) = List.length projects + 2
    /\ filter is_separator (PrjTray.make_menu projects) = [SEPARATOR]
    /\ filter is_quit (PrjTray.make_menu projects)
       = [Item "Quit" (QuitAction "Menu Exit") None false].
Proof.
  destruct (build_projects_returns conf w) as (projects & Hb & Hk).
  exists projects. split; [exact Hb|].
  pose proof (make_menu_BuildMenu projects Hk) as Hm. unfold BuildMenu in Hm.
  split; [exact Hm|]. rewrite Hm.
  split.
  { intros i p Hi. rewrite nth_error_app1.
    - rewrite nth_error_map, Hi. reflexivity.
    - rewrite length_map. apply nth_error_Some. congruence. }
  split.
  { intros p Hp. unfold project_entry.
    replace (2 <=? List.length (Project.workpackages p))%nat with false
      by (symmetry; apply Nat.leb_gt; lia).
    reflexivity. }
  split.
  { intros p Hp. unfold project_entry.
    replace (2 <=? List.length (Project.workpackages p))%nat with true
      by (symmetry; apply Nat.leb_le; lia).
    reflexivity. }
  split.
  { rewrite length_app, !length_map. reflexivity. }
  split.
  - rewrite filter_app, filter_entries_nil by (intros p; apply project_entry_plain).
    reflexivity.
  - rewrite filter_app, filter_entries_nil by (intros p; apply project_entry_plain).
    reflexivity.
Qed.

Lemma make_menu_shape_witness :
  exists projects : OrderedDict.t Project.t,
    build_projects alpha_beta (sample_world ["myIcon_Alpha.ico"] true)
    = (Ok projects, sample_world ["myIcon_Alpha.ico"] true)
    /\ nth_error (PrjTray.make_menu projects) 1
       = Some (leaf "Beta" (KStr "200"))
    /\ nth_error (PrjTray.make_menu projects) 0
       = Some (Item "Alpha"
                 (Menu [leaf "Setup" (KTup "100" "1"); leaf "Build" (KTup "100" "2")])
                 None false).
Proof.
  destruct (make_menu_shape alpha_beta (sample_world ["myIcon_Alpha.ico"] true))
    as (projects & Hb & _ & Hnth & Hleaf & Hsub & _).
  exists projects. split; [exact Hb|].
  assert (Hp : projects = alpha_beta_projects).
  { assert (E : build_projects alpha_beta (sample_world ["myIcon_Alpha.ico"] true)
                = (Ok alpha_beta_projects, sample_world ["myIcon_Alpha.ico"] true))
      by (vm_compute; reflexivity).
    rewrite E in Hb. inversion Hb. reflexivity. }
  subst projects. split.
  - rewrite (Hnth 1 (Project.mk "200" "Beta" None []) eq_refl).
    rewrite Hleaf; [reflexivity | simpl; lia].
  - rewrite (Hnth 0 (Project.mk "100" "Alpha" (Some alpha_icon)
                       [("1", ("Setup", None)); ("2", ("Build", None))]) eq_refl).
    rewrite Hsub; [reflexivity | simpl; lia].
Defined.

(** ** Dictionary facts *)

Lemma od_find_set_same {V : Type} (d : OrderedDict.t V) (k : string) (v : V) :
  OrderedDict.find (OrderedDict.set d k v) k = Some v.
Proof.
  induction d as [|[k' v'] r IH]; cbn [OrderedDict.set OrderedDict.find].
  - rewrite String.eqb_refl. reflexivity.
  - destruct (String.eqb k' k) eqn:E; cbn [OrderedDict.find]; rewrite E;
      [reflexivity | exact IH].
Qed.

Lemma od_find_set_other {V : Type} (d : OrderedDict.t V) (k k' : string) (v : V) :
  k' <> k ->
  OrderedDict.find (OrderedDict.set d k v) k' = OrderedDict.find d k'.
Proof.
  intros Hne.
  induction d as [|[k0 v0] r IH]; cbn [OrderedDict.set OrderedDict.find].
  - destruct (String.eqb_spec k k'); [congruence | reflexivity].
  - destruct (String.eqb_spec k0 k) as [->|H0]; cbn [OrderedDict.find].
    + destruct (String.eqb_spec k k'); [congruence | reflexivity].
    + destruct (String.eqb k0 k'); [reflexivity | exact IH].
Qed.

Lemma od_find_in_keys {V : Type} (d : OrderedDict.t V) (k : string) :
  In k (OrderedDict.keys d) <-> exists v, OrderedDict.find d k = Some v.
Proof.
  unfold OrderedDict.keys.
  induction d as [|[k0 v0] r IH]; cbn [map fst In OrderedDict.find].
  - split; [contradiction | intros [v H]; discriminate].
  - destruct (String.eqb_spec k0 k) as [->|Hne].
    + split; [intros _; exists v0; reflexivity | intros _; left; reflexivity].
    + rewrite <- IH. split; [intros [H|H]; [congruence | exact H] | auto].
Qed.

Lemma od_keys_set {V : Type} (d : OrderedDict.t V) (k : string) (v : V) :
  OrderedDict.keys (OrderedDict.set d k v)
  = if OrderedDict.mem d (Some k) then OrderedDict.keys d
    else (OrderedDict.keys d ++ [k])%list.
Proof.
  unfold OrderedDict.keys, OrderedDict.mem.
  induction d as [|[k0 v0] r IH]; cbn [OrderedDict.set OrderedDict.find map fst app].
  - reflexivity.
  - destruct (String.eqb k0 k) eqn:E; cbn [map fst].
    + reflexivity.
    + rewrite IH. destruct (OrderedDict.find r k); reflexivity.
Qed.

Lemma od_mem_in_keys {V : Type} (d : OrderedDict.t V) (k : string) :
  OrderedDict.mem d (Some k) = true <-> In k (OrderedDict.keys d).
Proof.
  rewrite od_find_in_keys. unfold OrderedDict.mem.
  destruct (OrderedDict.find d k) as [v|].
  - split; [intros _; exists v; reflexivity | reflexivity].
  - split; [discriminate | intros [v H]; discriminate].
Qed.

Lemma od_set_NoDup {V : Type} (d : OrderedDict.t V) (k : string) (v : V) :
  NoDup (OrderedDict.keys d) -> NoDup (OrderedDict.keys (OrderedDict.set d k v)).
Proof.
  intros Hnd. rewrite od_keys_set.
  destruct (OrderedDict.mem d (Some k)) eqn:E; [exact Hnd|].
  apply NoDup_app; [exact Hnd | repeat constructor; intros [] |].
  intros x Hx [<- | []].
  apply od_mem_in_keys in Hx. congruence.
Qed.

Lemma od_in_find {V : Type} (d : OrderedDict.t V) (k : string) (v : V) :
  NoDup (OrderedDict.keys d) -> In (k, v) d -> OrderedDict.find d k = Some v.
Proof.
  unfold OrderedDict.keys.
  induction d as [|[k0 v0] r IH]; cbn [map fst In OrderedDict.find];
    intros Hnd Hin; [contradiction|].
  inversion Hnd as [|? ? Hnot Hr]; subst.
  destruct Hin as [E|Hin].
  - inversion E; subst. rewrite String.eqb_refl. reflexivity.
  - destruct (String.eqb_spec k0 k) as [->|Hne].
    + exfalso. apply Hnot. change k with (fst (k, v)). apply in_map. exact Hin.
    + apply IH; assumption.
Qed.

Lemma od_find_in {V : Type} (d : OrderedDict.t V) (k : string) (v : V) :
  OrderedDict.find d k = Some v -> In (k, v) d.
Proof.
  induction d as [|[k0 v0] r IH]; cbn [In OrderedDict.find]; intros H;
    [discriminate|].
  destruct (String.eqb_spec k0 k) as [->|Hne].
  - inversion H. left. reflexivity.
  - right. apply IH. exact H.
Qed.

Lemma od_set_length {V : Type} (d : OrderedDict.t V) (k : string) (v : V) :
  List.length (OrderedDict.set d k v) <= S (List.length d).
Proof.
  induction d as [|[k0 v0] r IH]; cbn [OrderedDict.set List.length]; [lia|].
  destruct (String.eqb k0 k); cbn [List.length]; lia.
Qed.

Lemma for_each_app {S A B : Type} (l1 l2 : list B) (acc : A)
  (body : A -> B -> M S A) (s : S) :
  for_each (l1 ++ l2)%list acc body s
  = match for_each l1 acc body s with
    | (Ok acc', s') => for_each l2 acc' body s'
    | (Raise e, s') => (Raise e, s')
    end.
Proof.
  revert acc s. induction l1 as [|x l1 IH]; intros acc s.
  - reflexivity.
  - cbn [app for_each]. unfold bind.
    destruct (body acc x s) as [[a|e] s1]; [apply IH | reflexivity].
Qed.

(** ** What the catalog holds *)

Lemma od_in_set {V : Type} (d : OrderedDict.t V) (k : string) (v : V)
  (k' : string) (v' : V) :
  In (k', v') (OrderedDict.set d k v) -> In (k', v') d \/ (k' = k /\ v' = v).
Proof.
  induction d as [|[k0 v0] r IH]; cbn [OrderedDict.set In].
  - intros [E|[]]. inversion E. right. split; reflexivity.
  - destruct (String.eqb_spec k0 k) as [->|Hne]; cbn [In].
    + intros [E|H]; [inversion E; right; split; reflexivity | left; right; exact H].
    + intros [E|H]; [left; left; exact E|].
      destruct (IH H) as [H'|H']; [left; right; exact H' | right; exact H'].
Qed.

Lemma get_image_path_exists (X : string) (w : World) :
  exists r : option Path.t,
    get_image_path X w = (Ok r, w)
    /\ (forall f, r = Some f -> fs_exists w (Path.to_string f) = true).
Proof.
  unfold get_image_path, bind, lift_res, Path.with_suffix.
  rewrite icon_candidate_has_name.
  unfold path_exists, gets, ret.
  match goal with
  | [ |- context [ if ?b then _ else _ ] ] => destruct b eqn:E
  end; eexists; (split; [reflexivity|]); intros f Hf; inversion Hf; subst.
  exact E.
Qed.

Lemma in_keys_set {V : Type} (d : OrderedDict.t V) (k : string) (v : V)
  (x : string) :
  In x (OrderedDict.keys (OrderedDict.set d k v))
  <-> In x (OrderedDict.keys d) \/ x = k.
Proof.
  rewrite od_keys_set.
  destruct (OrderedDict.mem d (Some k)) eqn:E.
  - split; [auto | intros [H | ->]; [exact H | apply od_mem_in_keys; exact E]].
  - rewrite in_app_iff. cbn [In]. split; intros [H|H]; auto.
    + destruct H as [<- | []]. right. reflexivity.
Qed.

Lemma workpackages_loop_spec (wps : list string)
  (d : OrderedDict.t (string * option Path.t)) (w : World) :
  exists d',
    for_each wps d (fun d wp =>
      '(wp_id, wp_name) <- lift_res (get_id_name wp) ;;
      wp_icon <- get_image_path wp_name ;;
      ret (OrderedDict.set d wp_id (wp_name, wp_icon))) w
    = (Ok d', w)
    /\ (NoDup (OrderedDict.keys d) -> NoDup (OrderedDict.keys d'))
    /\ (forall i, In i (OrderedDict.keys d')
                  <-> In i (OrderedDict.keys d) \/ In i (wp_ids wps))
    /\ List.length d' <= List.length d + List.length wps
    /\ (wp_icons_exist w d -> wp_icons_exist w d').
Proof.
  revert d. induction wps as [|wp wps IH]; intros d.
  - exists d. split; [reflexivity|]. split; [auto|]. split.
    + intros i. cbn. tauto.
    + split; [lia | auto].
  - cbn [for_each]. unfold bind at 1. unfold bind at 1.
    destruct (get_id_name_returns wp) as (i0 & n0 & Hp).
    unfold lift_res. rewrite Hp. unfold bind at 1.
    destruct (get_image_path_exists n0 w) as (r & Hr & Hex). rewrite Hr.
    unfold ret at 1.
    destruct (IH (OrderedDict.set d i0 (n0, r))) as (d' & Hrun & Hnd & Hkeys & Hlen & Hic).
    exists d'. split; [exact Hrun|]. split; [|split; [|split]].
    + intros H. apply Hnd. apply od_set_NoDup. exact H.
    + intros i. rewrite Hkeys, in_keys_set.
      unfold wp_ids. cbn [flat_map]. rewrite Hp. cbn [app In].
      fold (wp_ids wps). split; intros H; intuition congruence.
    + pose proof (od_set_length d i0 (n0, r)). cbn [List.length]. lia.
    + intros H. apply Hic. intros i n f Hin.
      apply od_in_set in Hin. destruct Hin as [Hin|[-> E]].
      * exact (H i n f Hin).
      * inversion E; subst. apply Hex. reflexivity.
Qed.

Lemma Project_init_spec (identifier : string) (wps : list string)
  (w : World) :
  exists p : Project.t,
    Project.init identifier wps w = (Ok p, w)
    /\ get_id_name identifier = Ok (Project.id p, Project.name p)
    /\ NoDup (OrderedDict.keys (Project.workpackages p))
    /\ (forall i, In i (OrderedDict.keys (Project.workpackages p))
                  <-> In i (wp_ids wps))
    /\ List.length (Project.workpackages p) <= List.length wps
    /\ (forall f, Project.icon p = Some f ->
                  fs_exists w (Path.to_string f) = true)
    /\ wp_icons_exist w (Project.workpackages p).
Proof.
  unfold Project.init.
  destruct (get_id_name_returns identifier) as (i & n & Hp).
  unfold bind at 1. unfold lift_res at 1. rewrite Hp.
  unfold bind at 1.
  destruct (get_image_path_exists n w) as (r & Hr & Hex). rewrite Hr.
  unfold bind at 1.
  destruct (workpackages_loop_spec wps OrderedDict.empty w)
    as (d & Hd & Hnd & Hkeys & Hlen & Hic).
  rewrite Hd. eexists. split; [reflexivity|].
  cbn [Project.id Project.name Project.workpackages Project.icon].
  split; [reflexivity|]. split; [apply Hnd; constructor|]. split.
  - intros x. rewrite Hkeys. cbn. tauto.
  - split; [exact Hlen|]. split; [exact Hex|].
    apply Hic. intros ? ? ? [].
Qed.

Lemma wp_ids_in (wps : list string) (i : string) :
  In i (wp_ids wps) <-> exists wp n, In wp wps /\ get_id_name wp = Ok (i, n).
Proof.
  unfold wp_ids. rewrite in_flat_map. split.
  - intros (wp & Hin & Hi).
    destruct (get_id_name wp) as [[i' n]|e] eqn:E; [|contradiction].
    destruct Hi as [<-|[]]. exists wp, n. split; [exact Hin | exact E].
  - intros (wp & n & Hin & E). exists wp. split; [exact Hin|].
    rewrite E. left. reflexivity.
Qed.

(** X1: when [Project.__init__] returns, it has left the world as it was.
    The project's id and name are those [get_id_name] gives for the
    identifier; every element of the sequence is found among the
    work-packages under its id, no other id is, and no id occurs twice, so
    elements with the same id share one entry; every icon path stored, for
    the project or for a work-package, names a file that exists. *)
Theorem Project_init_contents (identifier : string) (wps : list string)
  (w w' : World) (p : Project.t) :
  Project.init identifier wps w = (Ok p, w') ->
  w' = w
  /\ get_id_name identifier = Ok (Project.id p, Project.name p)
  /\ NoDup (OrderedDict.keys (Project.workpackages p))
  /\ (forall wp, In wp wps ->
        exists i n, get_id_name wp = Ok (i, n)
                    /\ OrderedDict.mem (Project.workpackages p) (Some i) = true)
  /\ (forall i, OrderedDict.mem (Project.workpackages p) (Some i) = true ->
        exists wp n, In wp wps /\ get_id_name wp = Ok (i, n))
  /\ List.length (Project.workpackages p) <= List.length wps
  /\ (forall f, Project.icon p = Some f ->
                fs_exists w (Path.to_string f) = true)
  /\ wp_icons_exist w (Project.workpackages p).
Proof.
  intros Hinit.
  destruct (Project_init_spec identifier wps w)
    as (p0 & Hrun & Hid & Hnd & Hkeys & Hlen & Hicon & Hwp).
  rewrite Hrun in Hinit. inversion Hinit; subst p0 w'. clear Hinit.
  split; [reflexivity|]. split; [exact Hid|]. split; [exact Hnd|].
  split; [|split; [|split; [exact Hlen | split; [exact Hicon | exact Hwp]]]].
  - intros wp Hin. destruct (get_id_name_returns wp) as (i & n & E).
    exists i, n. split; [exact E|].
    apply od_mem_in_keys, Hkeys, wp_ids_in. exists wp, n. split; assumption.
  - intros i Hm. apply wp_ids_in, Hkeys, od_mem_in_keys. exact Hm.
Qed.

Lemma Project_init_contents_witness :
  sample_world ["myIcon_Alpha.ico"] true = sample_world ["myIcon_Alpha.ico"] true
  /\ get_id_name "100-Alpha" = Ok ("100", "Alpha")
  /\ NoDup (OrderedDict.keys [("1", ("Setup", @None Path.t))])
  /\ (forall wp, In wp ["1-Setup"; "1-Set-up"] ->
        exists i n, get_id_name wp = Ok (i, n)
                    /\ OrderedDict.mem [("1", ("up", @None Path.t))] (Some i) = true).
Proof.
  destruct (@Project_init_contents "100-Alpha" ["1-Setup"; "1-Set-up"]
              (sample_world ["myIcon_Alpha.ico"] true)
              (sample_world ["myIcon_Alpha.ico"] true)
              (Project.mk "100" "Alpha" (Some alpha_icon) [("1", ("up", None))]))
    as (Hw & Hid & _ & Hin & _).
  - vm_compute. reflexivity.
  - split; [exact Hw|]. split; [exact Hid|].
    split; [repeat constructor; intros []|]. exact Hin.
Defined.

Lemma projects_loop_spec (conf : Config) (acc : OrderedDict.t Project.t)
  (w : World) (P : Project.t -> Prop) :
  (forall k v p, Project.init k v w = (Ok p, w) -> P p) ->
  exists projects,
    for_each conf acc (fun projects (kv : string * list string) =>
      let (k, v) := kv in
      p <- Project.init k v ;;
      ret (OrderedDict.set projects (Project.id p) p)) w
    = (Ok projects, w)
    /\ (NoDup (OrderedDict.keys acc) -> NoDup (OrderedDict.keys projects))
    /\ (forall i, In i (OrderedDict.keys projects)
                  <-> In i (OrderedDict.keys acc) \/ In i (config_ids conf))
    /\ List.length projects <= List.length acc + List.length conf
    /\ ((forall k p, In (k, p) acc -> P p) ->
        forall k p, In (k, p) projects -> P p).
Proof.
  intros HP. revert acc. induction conf as [|[k v] conf IH]; intros acc.
  - exists acc. split; [reflexivity|]. split; [auto|]. split.
    + intros i. cbn. tauto.
    + split; [lia | auto].
  - cbn [for_each]. unfold bind at 1. unfold bind at 1.
    destruct (Project_init_returns k v w) as (p & Hp & Hid). rewrite Hp.
    unfold ret at 1.
    destruct (IH (OrderedDict.set acc (Project.id p) p))
      as (projects & Hrun & Hnd & Hkeys & Hlen & Hall).
    exists projects. split; [exact Hrun|]. split; [|split; [|split]].
    + intros H. apply Hnd. apply od_set_NoDup. exact H.
    + intros i. rewrite Hkeys, in_keys_set.
      unfold config_ids. cbn [flat_map fst]. rewrite Hid. cbn [app In].
      fold (config_ids conf). split; intros H; intuition congruence.
    + pose proof (od_set_length acc (Project.id p) p). cbn [List.length]. lia.
    + intros H. apply Hall. intros k' p' Hin.
      apply od_in_set in Hin. destruct Hin as [Hin|[_ ->]].
      * exact (H k' p' Hin).
      * exact (HP k v p Hp).
Qed.

Lemma keyed_by_id_in (projects : OrderedDict.t Project.t) (k : string)
  (p : Project.t) :
  keyed_by_id projects = true -> In (k, p) projects -> k = Project.id p.
Proof.
  unfold keyed_by_id. rewrite forallb_forall. intros H Hin.
  apply String.eqb_eq. exact (H (k, p) Hin).
Qed.

Lemma Project_init_wps_NoDup (k : string) (v : list string) (w : World)
  (p : Project.t) :
  Project.init k v w = (Ok p, w) ->
  NoDup (OrderedDict.keys (Project.workpackages p)).
Proof.
  intros H. destruct (Project_init_spec k v w) as (p' & Hrun & _ & Hnd & _).
  rewrite Hrun in H. inversion H; subst. exact Hnd.
Qed.

(** The catalog of the script: unique ids, every project under its own id,
    every project with unique work-package ids. *)
Lemma build_projects_spec (conf : Config) (w : World) :
  exists projects,
    build_projects conf w = (Ok projects, w)
    /\ keyed_by_id projects = true
    /\ NoDup (OrderedDict.keys projects)
    /\ (forall i, In i (OrderedDict.keys projects) <-> In i (config_ids conf))
    /\ List.length projects <= List.length conf
    /\ (forall k p, In (k, p) projects ->
          NoDup (OrderedDict.keys (Project.workpackages p))).
Proof.
  destruct (build_projects_returns conf w) as (projects & Hb & Hk).
  destruct (@projects_loop_spec conf OrderedDict.empty w
              (fun p => NoDup (OrderedDict.keys (Project.workpackages p)))
              (fun k v p H => @Project_init_wps_NoDup k v w p H))
    as (projects' & Hrun & Hnd & Hkeys & Hlen & Hall).
  unfold build_projects in Hb. rewrite Hrun in Hb. inversion Hb; subst projects'.
  exists projects. split; [exact Hrun|]. split; [exact Hk|].
  split; [apply Hnd; constructor|]. split.
  - intros i. rewrite Hkeys. cbn. tauto.
  - split; [exact Hlen|]. apply Hall. intros ? ? [].
Qed.

(** X2: when the catalog build returns, it has left the world as it was.
    The catalog holds exactly the ids the configuration names, each once,
    so keys with the same id share one entry; every project stored is the
    one found under its own id. *)
Theorem build_projects_catalog (conf : Config) (w w' : World)
  (projects : OrderedDict.t Project.t) :
  build_projects conf w = (Ok projects, w') ->
  w' = w
  /\ NoDup (OrderedDict.keys projects)
  /\ (forall k v, In (k, v) conf ->
        exists i n, get_id_name k = Ok (i, n)
                    /\ OrderedDict.mem projects (Some i) = true)
  /\ (forall i, OrderedDict.mem projects (Some i) = true ->
        exists k v n, In (k, v) conf /\ get_id_name k = Ok (i, n))
  /\ (forall k p, In (k, p) projects ->
        k = Project.id p /\ OrderedDict.get projects (Project.id p) = Ok p)
  /\ List.length projects <= List.length conf.
Proof.
  intros Hbuild.
  destruct (build_projects_spec conf w)
    as (projects0 & Hb & Hk & Hnd & Hkeys & Hlen & _).
  rewrite Hb in Hbuild. inversion Hbuild; subst projects0 w'. clear Hbuild.
  split; [reflexivity|]. split; [exact Hnd|].
  split; [|split; [|split; [|exact Hlen]]].
  - intros k v Hin. destruct (get_id_name_returns k) as (i & n & E).
    exists i, n. split; [exact E|].
    apply od_mem_in_keys, Hkeys. unfold config_ids. apply in_flat_map.
    exists (k, v). split; [exact Hin|]. cbn [fst]. rewrite E. left. reflexivity.
  - intros i Hm. apply od_mem_in_keys, Hkeys in Hm.
    unfold config_ids in Hm. apply in_flat_map in Hm.
    destruct Hm as ([k v] & Hin & Hi). cbn [fst] in Hi.
    destruct (get_id_name k) as [[i' n]|e] eqn:E; [|contradiction].
    destruct Hi as [<-|[]]. exists k, v, n. split; [exact Hin | exact E].
  - intros k p Hin. pose proof (@keyed_by_id_in projects k p Hk Hin) as ->.
    split; [reflexivity|]. unfold OrderedDict.get.
    rewrite (@od_in_find _ projects (Project.id p) p Hnd Hin). reflexivity.
Qed.

Lemma build_projects_catalog_witness :
  sample_world ["myIcon_Alpha.ico"] true = sample_world ["myIcon_Alpha.ico"] true
  /\ NoDup (OrderedDict.keys alpha_beta_projects)
  /\ List.length alpha_beta_projects <= List.length alpha_beta.
Proof.
  destruct (@build_projects_catalog alpha_beta
              (sample_world ["myIcon_Alpha.ico"] true)
              (sample_world ["myIcon_Alpha.ico"] true)
              alpha_beta_projects)
    as (Hw & Hnd & _ & _ & _ & Hlen).
  - vm_compute. reflexivity.
  - split; [exact Hw|]. split; [exact Hnd | exact Hlen].
Defined.

(** ** The keys of the menu *)

Lemma menu_keys_app (a b : list MenuItem) :
  menu_keys (a ++ b)%list = (menu_keys a ++ menu_keys b)%list.
Proof. unfold menu_keys. apply flat_map_app. Qed.

Lemma menu_entry_keys (entry : string * Project.t) :
  menu_keys [menu_entry entry] = entry_keys entry.
Proof.
  destruct entry as [id p]. unfold menu_keys, menu_entry, entry_keys.
  cbn [flat_map].
  destruct (1 <? List.length (Project.workpackages p))%nat; [|reflexivity].
  rewrite app_nil_r.
  induction (Project.workpackages p) as [|e r IH]; [reflexivity|].
  cbn [map flat_map leaf_key app]. rewrite IH. reflexivity.
Qed.

Lemma make_menu_keys (projects : OrderedDict.t Project.t) :
  menu_keys (PrjTray.make_menu projects) = flat_map entry_keys projects.
Proof.
  rewrite make_menu_entries, menu_keys_app.
  change (menu_keys [SEPARATOR; Item "Quit" (QuitAction "Menu Exit") None false])
    with (@nil Key).
  rewrite app_nil_r.
  induction projects as [|e r IH]; [reflexivity|].
  change (map menu_entry (e :: r)) with ([menu_entry e] ++ map menu_entry r)%list.
  rewrite menu_keys_app, menu_entry_keys, IH. reflexivity.
Qed.

Lemma entry_keys_project (k : string) (p : Project.t) (x : Key) :
  In x (entry_keys (k, p)) ->
  key_project x = k
  /\ match key_wp x with
     | Some wid => In wid (OrderedDict.keys (Project.workpackages p))
     | None => True
     end.
Proof.
  unfold entry_keys.
  destruct (1 <? List.length (Project.workpackages p))%nat.
  - rewrite in_map_iff. intros ([wid v] & <- & Hin). cbn.
    split; [reflexivity|]. unfold OrderedDict.keys.
    change wid with (fst (wid, v)). apply in_map. exact Hin.
  - intros [<-|[]]. cbn. split; [reflexivity | exact I].
Qed.

Lemma menu_key_valid (projects : OrderedDict.t Project.t) (x : Key) :
  NoDup (OrderedDict.keys projects) ->
  In x (flat_map entry_keys projects) ->
  valid_key projects x = true.
Proof.
  intros Hnd Hin. apply in_flat_map in Hin. destruct Hin as ([k p] & Hin & Hx).
  apply entry_keys_project in Hx. destruct Hx as [Hk Hw].
  unfold valid_key. rewrite Hk, (@od_in_find _ projects k p Hnd Hin).
  destruct (key_wp x) as [wid|]; [|reflexivity].
  apply od_mem_in_keys. exact Hw.
Qed.

Lemma entry_keys_NoDup (k : string) (p : Project.t) :
  NoDup (OrderedDict.keys (Project.workpackages p)) -> NoDup (entry_keys (k, p)).
Proof.
  intros Hnd. unfold entry_keys.
  destruct (1 <? List.length (Project.workpackages p))%nat.
  - unfold OrderedDict.keys in Hnd.
    induction (Project.workpackages p) as [|[wid v] r IH]; [constructor|].
    cbn [map fst] in *. inversion Hnd as [|? ? Hnot Hr]; subst.
    constructor; [|apply IH; exact Hr].
    rewrite in_map_iff. intros ([wid' v'] & E & Hin). inversion E; subst.
    apply Hnot. change wid with (fst (wid, v')). apply in_map. exact Hin.
  - repeat constructor. intros [].
Qed.

Lemma flat_entry_keys_NoDup (projects : OrderedDict.t Project.t) :
  NoDup (OrderedDict.keys projects) ->
  (forall k p, In (k, p) projects ->
     NoDup (OrderedDict.keys (Project.workpackages p))) ->
  NoDup (flat_map entry_keys projects).
Proof.
  unfold OrderedDict.keys.
  induction projects as [|[k p] r IH]; intros Hnd Hwp; [constructor|].
  cbn [map fst flat_map] in *. inversion Hnd as [|? ? Hnot Hr]; subst.
  apply NoDup_app.
  - apply entry_keys_NoDup. apply (Hwp k p). left. reflexivity.
  - apply IH; [exact Hr|]. intros k' p' Hin. apply (Hwp k' p'). right. exact Hin.
  - intros x Hx Hx'. apply entry_keys_project in Hx. destruct Hx as [Hk _].
    apply in_flat_map in Hx'. destruct Hx' as ([k' p'] & Hin & Hx').
    apply entry_keys_project in Hx'. destruct Hx' as [Hk' _].
    apply Hnot. rewrite <- Hk, Hk'. change k' with (fst (k', p')).
    apply in_map. exact Hin.
Qed.

Lemma filter_selected_NoDup (l : list Key) (cur : Key) :
  NoDup l ->
  filter (fun k => Key_eqb k cur) l
  = if existsb (fun k => Key_eqb k cur) l then [cur] else [].
Proof.
  induction l as [|a r IH]; intros Hnd; [reflexivity|].
  inversion Hnd as [|? ? Hnot Hr]; subst.
  cbn [filter existsb]. rewrite (IH Hr).
  destruct (Key_eqb a cur) eqn:E; [|reflexivity].
  apply Key_eqb_eq in E. subst a. cbn [orb].
  destruct (existsb (fun k => Key_eqb k cur) r) eqn:Ex; [|reflexivity].
  apply existsb_exists in Ex. destruct Ex as (x & Hx & Hxc).
  apply Key_eqb_eq in Hxc. subst x. contradiction.
Qed.

(** X3: every selectable leaf of the menu built for the catalog of a
    configuration carries a valid key of that catalog, so the catalog
    look-up of [get_project] for a clicked leaf never raises [KeyError]. *)
Theorem menu_keys_are_valid (conf : Config) (w : World) :
  exists projects : OrderedDict.t Project.t,
    build_projects conf w = (Ok projects, w)
    /\ forall k : Key,
         In k (menu_keys (PrjTray.make_menu projects)) ->
         valid_key projects k = true
         /\ exists p, PrjTray.get_project projects k = Ok (p, key_wp k).
Proof.
  destruct (build_projects_spec conf w) as (projects & Hb & _ & Hnd & _).
  exists projects. split; [exact Hb|]. intros k Hin.
  rewrite make_menu_keys in Hin.
  pose proof (menu_key_valid _ _ Hnd Hin) as Hv. split; [exact Hv|].
  unfold valid_key in Hv.
  destruct (OrderedDict.find projects (key_project k)) as [p|] eqn:E;
    [|discriminate].
  exists p. apply get_project_found. exact E.
Qed.

(** X4: no two selectable leaves of the menu built for the catalog of a
    configuration carry the same key, so whatever the current selection is,
    at most one leaf answers [is_selected] with true, and exactly one does
    when the current selection is a key of the menu. *)
Theorem menu_selection_unique (conf : Config) (w : World) :
  exists projects : OrderedDict.t Project.t,
    build_projects conf w = (Ok projects, w)
    /\ NoDup (menu_keys (PrjTray.make_menu projects))
    /\ forall tray : PrjTray.t,
         List.length (filter (fun k => PrjTray.is_selected k tray)
                        (menu_keys (PrjTray.make_menu projects))) <= 1
         /\ (In (PrjTray.project tray) (menu_keys (PrjTray.make_menu projects)) ->
             filter (fun k => PrjTray.is_selected k tray)
               (menu_keys (PrjTray.make_menu projects))
             = [PrjTray.project tray]).
Proof.
  destruct (build_projects_spec conf w) as (projects & Hb & _ & Hnd & _ & _ & Hwp).
  exists projects. split; [exact Hb|].
  assert (Hk : NoDup (menu_keys (PrjTray.make_menu projects))).
  { rewrite make_menu_keys. apply flat_entry_keys_NoDup; assumption. }
  split; [exact Hk|]. intros tray.
  unfold PrjTray.is_selected.
  rewrite (filter_selected_NoDup (PrjTray.project tray) Hk).
  split.
  - destruct (existsb _ _); cbn; lia.
  - intros Hin.
    replace (existsb (fun k => Key_eqb k (PrjTray.project tray))
               (menu_keys (PrjTray.make_menu projects))) with true; [reflexivity|].
    symmetry. apply existsb_exists. exists (PrjTray.project tray).
    split; [exact Hin | apply Key_eqb_eq; reflexivity].
Qed.

(** ** The default selection and the catalog *)

(** X5: when the first project of a built catalog has two or more
    work-packages, the default selection is the pair of its id and its first
    work-package's id; this key is valid in the catalog and is the key of
    the first selectable leaf of the menu. *)
Theorem default_selection_several_is_first_leaf
  (conf : Config) (w : World) (projects rest : OrderedDict.t Project.t)
  (k : string) (p : Project.t) :
  build_projects conf w = (Ok projects, w) ->
  projects = (k, p) :: rest ->
  2 <= List.length (Project.workpackages p) ->
  exists first_wp : string,
    OrderedDict.first_key (Project.workpackages p) = Ok first_wp
    /\ default_selection projects = Ok (KTup (Project.id p) first_wp)
    /\ valid_key projects (KTup (Project.id p) first_wp) = true
    /\ hd_error (menu_keys (PrjTray.make_menu projects))
       = Some (KTup (Project.id p) first_wp).
Proof.
  intros Hb -> Hlen.
  destruct (build_projects_spec conf w) as (projects & Hb' & Hk & Hnd & _).
  rewrite Hb' in Hb. inversion Hb; subst projects. clear Hb.
  assert (Hid : k = Project.id p).
  { apply (@keyed_by_id_in ((k, p) :: rest) k p Hk). left. reflexivity. }
  subst k.
  assert (Hlt : (1 <? List.length (Project.workpackages p))%nat = true)
    by (apply Nat.ltb_lt; lia).
  destruct (Project.workpackages p) as [|[w1 v1] r] eqn:Ewp;
    [cbn in Hlen; lia|].
  exists w1. split; [reflexivity|].
  assert (Hd : default_selection ((Project.id p, p) :: rest)
               = Ok (KTup (Project.id p) w1)).
  { unfold default_selection. cbn [OrderedDict.first_value res_bind].
    rewrite Ewp, Hlt. reflexivity. }
  split; [exact Hd|].
  assert (Hh : hd_error (menu_keys (PrjTray.make_menu ((Project.id p, p) :: rest)))
               = Some (KTup (Project.id p) w1)).
  { rewrite make_menu_keys. cbn [flat_map]. unfold entry_keys at 1.
    rewrite Ewp, Hlt. reflexivity. }
  split; [|exact Hh].
  apply menu_key_valid; [exact Hnd|].
  rewrite <- make_menu_keys.
  destruct (menu_keys (PrjTray.make_menu ((Project.id p, p) :: rest)));
    [discriminate|].
  inversion Hh. left. reflexivity.
Qed.

Lemma default_selection_several_is_first_leaf_witness :
  exists first_wp : string,
    OrderedDict.first_key [("1", ("Setup", @None Path.t)); ("2", ("Build", None))]
    = Ok first_wp
    /\ default_selection alpha_beta_projects = Ok (KTup "100" first_wp)
    /\ valid_key alpha_beta_projects (KTup "100" first_wp) = true
    /\ hd_error (menu_keys (PrjTray.make_menu alpha_beta_projects))
       = Some (KTup "100" first_wp).
Proof.
  apply (@default_selection_several_is_first_leaf
           alpha_beta (sample_world ["myIcon_Alpha.ico"] true)
           alpha_beta_projects
           [("200", Project.mk "200" "Beta" None [])]
           "100"
           (Project.mk "100" "Alpha" (Some alpha_icon)
              [("1", ("Setup", None)); ("2", ("Build", None))])).
  - vm_compute. reflexivity.
  - reflexivity.
  - simpl. lia.
Defined.

(** X6: when the first project of a built catalog has at most one
    work-package, the default selection is the string of its name.  That
    string is a valid key exactly when it is the id of some project of the
    catalog; when the name equals the project's own id, it is the key of the
    first selectable leaf of the menu. *)
Theorem default_selection_single_is_name
  (conf : Config) (w : World) (projects rest : OrderedDict.t Project.t)
  (k : string) (p : Project.t) :
  build_projects conf w = (Ok projects, w) ->
  projects = (k, p) :: rest ->
  List.length (Project.workpackages p) <= 1 ->
  default_selection projects = Ok (KStr (Project.name p))
  /\ (valid_key projects (KStr (Project.name p)) = true
      <-> In (Project.name p) (OrderedDict.keys projects))
  /\ (Project.name p = Project.id p ->
      hd_error (menu_keys (PrjTray.make_menu projects))
      = Some (KStr (Project.name p))).
Proof.
  intros Hb -> Hlen.
  destruct (build_projects_spec conf w) as (projects & Hb' & Hk & Hnd & _).
  rewrite Hb' in Hb. inversion Hb; subst projects. clear Hb.
  assert (Hid : k = Project.id p).
  { apply (@keyed_by_id_in ((k, p) :: rest) k p Hk). left. reflexivity. }
  subst k.
  assert (Hlt : (1 <? List.length (Project.workpackages p))%nat = false)
    by (apply Nat.ltb_ge; lia).
  split; [apply default_selection_at_most_one; exact Hlt|]. split.
  - rewrite od_find_in_keys. unfold valid_key. cbn [key_project key_wp].
    destruct (OrderedDict.find ((Project.id p, p) :: rest) (Project.name p))
      as [q|].
    + split; [intros _; exists q; reflexivity | reflexivity].
    + split; [discriminate | intros [q Hq]; discriminate].
  - intros Hn. rewrite make_menu_keys. cbn [flat_map]. unfold entry_keys at 1.
    rewrite Hlt, Hn. reflexivity.
Qed.

Lemma default_selection_single_is_name_witness :
  default_selection [("Solo", Project.mk "Solo" "Solo" None [])]
  = Ok (KStr "Solo")
  /\ (valid_key [("Solo", Project.mk "Solo" "Solo" None [])] (KStr "Solo") = true
      <-> In "Solo" (OrderedDict.keys [("Solo", Project.mk "Solo" "Solo" None [])]))
  /\ ("Solo" = "Solo" ->
      hd_error (menu_keys (PrjTray.make_menu
                             [("Solo", Project.mk "Solo" "Solo" None [])]))
      = Some (KStr "Solo")).
Proof.
  apply (@default_selection_single_is_name
           [("Solo", [])] (sample_world [] true)
           [("Solo", Project.mk "Solo" "Solo" None [])] []
           "Solo" (Project.mk "Solo" "Solo" None [])).
  - vm_compute. reflexivity.
  - reflexivity.
  - simpl. lia.
Defined.

(** ** Constructing the tray *)

Lemma PrjTray_init_run
  (logfile : string) (projects : OrderedDict.t Project.t) (default : Key)
  (p : Project.t) (path : Path.t) (img : Image) (w : World) :
  OrderedDict.find projects (key_project default) = Some p ->
  Project.get_wp_icon p (key_wp default) = Some path ->
  image_file w (Path.to_string path) = Some img ->
  appendable w logfile = true ->
  PrjTray.init logfile projects default w
  = (Ok {| PrjTray.project := default; PrjTray.logfile := logfile;
           PrjTray.projects := projects;
           PrjTray.menu := PrjTray.make_menu projects;
           PrjTray.fallback_icon := img; PrjTray.tray_icon := img;
           PrjTray.tray_stopped := false |},
     with_appended
       (with_created (world_after_change w false (selection_label p default))
          logfile)
       (appended w
        ++ [(logfile,
             (change_record (clock w (clock_reads w)) (selection_label p default)
              ++ newline)%string)])%list).
Proof.
  intros Hfind Hget Himg Happ.
  unfold PrjTray.init. unfold bind at 1. unfold lift_res at 1.
  rewrite (get_project_found _ default Hfind).
  unfold bind at 1. rewrite Hget.
  unfold Image_open, bind, gets, ret. rewrite Himg.
  match goal with
  | [ |- context [ PrjTray.change_project default ?s0 ] ] =>
      pose proof (@change_project_run s0 default p img Hfind) as Hrun
  end.
  cbn [PrjTray.self PrjTray.world PrjTray.fallback_icon PrjTray.logfile] in Hrun.
  rewrite (@resolve_of_get_wp_icon p default path img w Hget) in Hrun.
  specialize (Hrun Himg). rewrite Happ, Hget in Hrun.
  rewrite Hrun. reflexivity.
Qed.

(** X7: when the default key names a project of the catalog, the icon file
    chosen for it opens as an image and the log file can be appended to, the
    constructor returns a tray whose current selection is the default,
    whose cached fallback icon and displayed icon are that image, whose menu
    is the one of [make_menu], and which is not stopped; it prints and
    appends exactly one record, the start-up record of the default. *)
Theorem PrjTray_init_constructs
  (logfile : string) (projects : OrderedDict.t Project.t) (default : Key)
  (p : Project.t) (path : Path.t) (img : Image) (w : World) :
  OrderedDict.find projects (key_project default) = Some p ->
  Project.get_wp_icon p (key_wp default) = Some path ->
  image_file w (Path.to_string path) = Some img ->
  appendable w logfile = true ->
  exists (tray : PrjTray.t) (w' : World),
    PrjTray.init logfile projects default w = (Ok tray, w')
    /\ PrjTray.project tray = default
    /\ PrjTray.fallback_icon tray = img
    /\ PrjTray.tray_icon tray = img
    /\ PrjTray.menu tray = PrjTray.make_menu projects
    /\ PrjTray.projects tray = projects
    /\ PrjTray.logfile tray = logfile
    /\ PrjTray.tray_stopped tray = false
    /\ console w'
       = (console w
          ++ [change_record (clock w (clock_reads w)) (selection_label p default)])%list
    /\ appended w'
       = (appended w
          ++ [(logfile,
               (change_record (clock w (clock_reads w)) (selection_label p default)
                ++ newline)%string)])%list.
Proof.
  intros Hfind Hget Himg Happ.
  rewrite (@PrjTray_init_run logfile projects default p path img w
             Hfind Hget Himg Happ).
  eexists. eexists. split; [reflexivity|].
  repeat split.
Qed.

Lemma PrjTray_init_constructs_witness :
  exists (tray : PrjTray.t) (w' : World),
    PrjTray.init "prjtrx_events.log" alpha_beta_projects (KTup "100" "1")
      (sample_world ["myIcon_Alpha.ico"] true) = (Ok tray, w')
    /\ PrjTray.project tray = KTup "100" "1"
    /\ PrjTray.fallback_icon tray = Bitmap "myIcon_Alpha.ico"
    /\ PrjTray.tray_icon tray = Bitmap "myIcon_Alpha.ico"
    /\ PrjTray.menu tray = PrjTray.make_menu alpha_beta_projects
    /\ PrjTray.projects tray = alpha_beta_projects
    /\ PrjTray.logfile tray = "prjtrx_events.log"
    /\ PrjTray.tray_stopped tray = false
    /\ console w' = ["2023-04-05 06:07:00 -- changed <100:1>"]
    /\ appended w'
       = [("prjtrx_events.log",
           ("2023-04-05 06:07:00 -- changed <100:1>" ++ newline)%string)].
Proof.
  apply (@PrjTray_init_constructs "prjtrx_events.log" alpha_beta_projects
           (KTup "100" "1")
           (Project.mk "100" "Alpha" (Some alpha_icon)
              [("1", ("Setup", None)); ("2", ("Build", None))])
           alpha_icon (Bitmap "myIcon_Alpha.ico")
           (sample_world ["myIcon_Alpha.ico"] true));
    reflexivity.
Defined.

(** X8: the constructor raises, before anything is printed or logged, when
    the default names no project of the catalog ([KeyError] of that name),
    when the project and work-package of the default have no icon file
    ([AttributeError]: [Image.open] is handed [None]) and when the icon file
    does not open as an image ([OSError]). *)
Theorem PrjTray_init_raises
  (logfile : string) (projects : OrderedDict.t Project.t) (default : Key)
  (w : World) :
  (OrderedDict.find projects (key_project default) = None ->
   PrjTray.init logfile projects default w
   = (Raise (KeyError (key_project default)), w))
  /\ (forall p,
        OrderedDict.find projects (key_project default) = Some p ->
        Project.get_wp_icon p (key_wp default) = None ->
        PrjTray.init logfile projects default w = (Raise AttributeError, w))
  /\ (forall p path,
        OrderedDict.find projects (key_project default) = Some p ->
        Project.get_wp_icon p (key_wp default) = Some path ->
        image_file w (Path.to_string path) = None ->
        PrjTray.init logfile projects default w = (Raise OSError, w)).
Proof.
  split; [|split].
  - intros Hfind. unfold PrjTray.init. unfold bind at 1. unfold lift_res at 1.
    rewrite (get_project_missing _ default Hfind). reflexivity.
  - intros p Hfind Hget. unfold PrjTray.init. unfold bind at 1.
    unfold lift_res at 1. rewrite (get_project_found _ default Hfind).
    unfold bind at 1. rewrite Hget. reflexivity.
  - intros p path Hfind Hget Himg. unfold PrjTray.init. unfold bind at 1.
    unfold lift_res at 1. rewrite (get_project_found _ default Hfind).
    unfold bind at 1. rewrite Hget.
    unfold Image_open, bind, gets. rewrite Himg. reflexivity.
Qed.

Lemma PrjTray_init_raises_witness :
  PrjTray.init "prjtrx_events.log" alpha_beta_projects (KStr "Alpha")
    (sample_world ["myIcon_Alpha.ico"] true)
  = (Raise (KeyError "Alpha"), sample_world ["myIcon_Alpha.ico"] true)
  /\ PrjTray.init "prjtrx_events.log" alpha_beta_projects (KStr "200")
       (sample_world ["myIcon_Alpha.ico"] true)
     = (Raise AttributeError, sample_world ["myIcon_Alpha.ico"] true)
  /\ PrjTray.init "prjtrx_events.log" alpha_beta_projects (KStr "100")
       (sample_world [] true)
     = (Raise OSError, sample_world [] true).
Proof.
  split; [|split].
  - apply (proj1 (PrjTray_init_raises "prjtrx_events.log" alpha_beta_projects
                    (KStr "Alpha") (sample_world ["myIcon_Alpha.ico"] true))).
    reflexivity.
  - apply (proj1 (proj2 (PrjTray_init_raises "prjtrx_events.log"
                           alpha_beta_projects (KStr "200")
                           (sample_world ["myIcon_Alpha.ico"] true)))
             (Project.mk "200" "Beta" None [])); reflexivity.
  - apply (proj2 (proj2 (PrjTray_init_raises "prjtrx_events.log"
                           alpha_beta_projects (KStr "100")
                           (sample_world [] true)))
             (Project.mk "100" "Alpha" (Some alpha_icon)
                [("1", ("Setup", None)); ("2", ("Build", None))])
             alpha_icon); reflexivity.
Defined.

(** ** Failed and repeated transitions *)

Lemma change_project_unknown (s : PrjTray.Sess) (k : Key) :
  OrderedDict.find (PrjTray.projects (PrjTray.self s)) (key_project k) = None ->
  PrjTray.change_project k s
  = (Raise (KeyError (key_project k)),
     PrjTray.mkSess (PrjTray.set_project (PrjTray.self s) k) (PrjTray.world s)).
Proof.
  intros Hfind. destruct s as [self0 w0]. cbn [PrjTray.self PrjTray.world] in *.
  unfold PrjTray.change_project, bind, PrjTray.update_self, modify, gets, lift_res.
  cbn [PrjTray.self PrjTray.world PrjTray.set_project PrjTray.projects].
  rewrite (get_project_missing _ k Hfind). reflexivity.
Qed.

Lemma change_project_unreadable (s : PrjTray.Sess) (k : Key) (p : Project.t)
  (path : Path.t) :
  OrderedDict.find (PrjTray.projects (PrjTray.self s)) (key_project k) = Some p ->
  Project.get_wp_icon p (key_wp k) = Some path ->
  image_file (PrjTray.world s) (Path.to_string path) = None ->
  PrjTray.change_project k s
  = (Raise OSError,
     PrjTray.mkSess (PrjTray.set_project (PrjTray.self s) k) (PrjTray.world s)).
Proof.
  intros Hfind Hget Himg. destruct s as [self0 w0].
  cbn [PrjTray.self PrjTray.world] in *.
  unfold PrjTray.change_project, bind, PrjTray.update_self, modify, gets, lift_res.
  cbn [PrjTray.self PrjTray.world PrjTray.set_project PrjTray.projects].
  rewrite (get_project_found _ k Hfind), Hget.
  unfold PrjTray.in_world, Image_open, bind, gets.
  cbn [PrjTray.self PrjTray.world]. rewrite Himg. reflexivity.
Qed.

Lemma on_click_other (s : PrjTray.Sess) (k : Key) :
  PrjTray.project (PrjTray.self s) <> k ->
  PrjTray.on_click k s = PrjTray.change_project k s.
Proof.
  intros Hne. unfold PrjTray.on_click, bind, gets.
  rewrite (Key_eqb_neq Hne). reflexivity.
Qed.

Lemma on_click_same (self0 : PrjTray.t) (w0 : World) :
  PrjTray.on_click (PrjTray.project self0) (PrjTray.mkSess self0 w0)
  = (Ok tt, PrjTray.mkSess self0
              (with_console w0 (console w0 ++ ["No change"])%list)).
Proof.
  unfold PrjTray.on_click, bind, gets. cbn [PrjTray.self PrjTray.world].
  rewrite (proj2 (Key_eqb_eq _ _) eq_refl). reflexivity.
Qed.

(** X9: a click that carries a key whose project is not in the catalog
    raises [KeyError] for that project, but only after the current selection
    has been overwritten with the key: afterwards [is_selected] answers true
    for it, the displayed icon is the old one, nothing was printed or
    logged, and a second click with the same key is a mere [No change]. *)
Theorem on_click_unknown_project (s : PrjTray.Sess) (k : Key) :
  PrjTray.project (PrjTray.self s) <> k ->
  OrderedDict.find (PrjTray.projects (PrjTray.self s)) (key_project k) = None ->
  let s1 := PrjTray.mkSess (PrjTray.set_project (PrjTray.self s) k)
              (PrjTray.world s) in
  PrjTray.on_click k s = (Raise (KeyError (key_project k)), s1)
  /\ PrjTray.is_selected k (PrjTray.self s1) = true
  /\ PrjTray.tray_icon (PrjTray.self s1) = PrjTray.tray_icon (PrjTray.self s)
  /\ PrjTray.on_click k s1
     = (Ok tt,
        PrjTray.mkSess (PrjTray.self s1)
          (with_console (PrjTray.world s)
             (console (PrjTray.world s) ++ ["No change"])%list)).
Proof.
  intros Hne Hfind s1. split; [|split; [|split]].
  - rewrite (on_click_other _ Hne). apply change_project_unknown. exact Hfind.
  - unfold PrjTray.is_selected. apply Key_eqb_eq. reflexivity.
  - reflexivity.
  - exact (on_click_same (PrjTray.set_project (PrjTray.self s) k) (PrjTray.world s)).
Qed.

Lemma on_click_unknown_project_witness :
  PrjTray.on_click (KTup "300" "1") (alpha_beta_session true)
  = (Raise (KeyError "300"),
     PrjTray.mkSess (PrjTray.set_project alpha_beta_tray (KTup "300" "1"))
       (sample_world ["myIcon_Alpha.ico"] true)).
Proof.
  apply (@on_click_unknown_project (alpha_beta_session true) (KTup "300" "1")).
  - discriminate.
  - reflexivity.
Defined.

(** X10: a click whose chosen icon file does not open as an image raises
    [OSError] after the current selection has been set to the new key: the
    old icon stays displayed under the new selection, nothing is printed or
    logged, and a second click with the same key is a mere [No change], so
    the change is never logged. *)
Theorem on_click_unreadable_icon (s : PrjTray.Sess) (k : Key) (p : Project.t)
  (path : Path.t) :
  PrjTray.project (PrjTray.self s) <> k ->
  OrderedDict.find (PrjTray.projects (PrjTray.self s)) (key_project k) = Some p ->
  Project.get_wp_icon p (key_wp k) = Some path ->
  image_file (PrjTray.world s) (Path.to_string path) = None ->
  let s1 := PrjTray.mkSess (PrjTray.set_project (PrjTray.self s) k)
              (PrjTray.world s) in
  PrjTray.on_click k s = (Raise OSError, s1)
  /\ PrjTray.project (PrjTray.self s1) = k
  /\ PrjTray.tray_icon (PrjTray.self s1) = PrjTray.tray_icon (PrjTray.self s)
  /\ PrjTray.on_click k s1
     = (Ok tt,
        PrjTray.mkSess (PrjTray.self s1)
          (with_console (PrjTray.world s)
             (console (PrjTray.world s) ++ ["No change"])%list)).
Proof.
  intros Hne Hfind Hget Himg s1. split; [|split; [|split]].
  - rewrite (on_click_other _ Hne).
    apply (@change_project_unreadable s k p path Hfind Hget Himg).
  - reflexivity.
  - reflexivity.
  - exact (on_click_same (PrjTray.set_project (PrjTray.self s) k) (PrjTray.world s)).
Qed.

Lemma on_click_unreadable_icon_witness :
  PrjTray.on_click (KStr "100")
    (PrjTray.mkSess alpha_beta_tray (sample_world [] true))
  = (Raise OSError,
     PrjTray.mkSess (PrjTray.set_project alpha_beta_tray (KStr "100"))
       (sample_world [] true)).
Proof.
  apply (@on_click_unreadable_icon
           (PrjTray.mkSess alpha_beta_tray (sample_world [] true)) (KStr "100")
           (Project.mk "100" "Alpha" (Some alpha_icon)
              [("1", ("Setup", None)); ("2", ("Build", None))])
           alpha_icon).
  - discriminate.
  - reflexivity.
  - reflexivity.
  - reflexivity.
Defined.

(** X11: after a successful transition to [k], [is_selected] answers true
    for [k] and for no other key, and a second click with [k] only prints
    [No change]: two clicks on the same entry leave one record in the
    log. *)
Theorem on_click_twice_logs_once
  (s : PrjTray.Sess) (k : Key) (p : Project.t) (shown : Image) :
  PrjTray.project (PrjTray.self s) <> k ->
  OrderedDict.find (PrjTray.projects (PrjTray.self s)) (key_project k) = Some p ->
  ResolveIcon p k (PrjTray.fallback_icon (PrjTray.self s)) (PrjTray.world s)
  = Some shown ->
  appendable (PrjTray.world s) (PrjTray.logfile (PrjTray.self s)) = true ->
  exists s1 s2 : PrjTray.Sess,
    PrjTray.on_click k s = (Ok tt, s1)
    /\ PrjTray.on_click k s1 = (Ok tt, s2)
    /\ (forall k', PrjTray.is_selected k' (PrjTray.self s1) = true <-> k' = k)
    /\ PrjTray.self s2 = PrjTray.self s1
    /\ appended (PrjTray.world s2) = appended (PrjTray.world s1)
    /\ List.length (appended (PrjTray.world s2))
       = S (List.length (appended (PrjTray.world s)))
    /\ last (console (PrjTray.world s2)) "" = "No change".
Proof.
  intros Hne Hfind Hicon Happ.
  pose proof (change_project_run s k Hfind Hicon) as Hrun. cbv zeta in Hrun.
  rewrite Happ in Hrun. rewrite <- (on_click_other _ Hne) in Hrun.
  eexists. eexists. split; [exact Hrun|]. split.
  - match goal with
    | [ |- PrjTray.on_click k (PrjTray.mkSess ?t ?w) = _ ] =>
        exact (on_click_same t w)
    end.
  - cbn [PrjTray.self PrjTray.world]. split; [|split; [|split; [|split]]].
    + intros k'. unfold PrjTray.is_selected. cbn. apply Key_eqb_eq.
    + reflexivity.
    + reflexivity.
    + cbn. rewrite length_app. cbn. lia.
    + cbn [with_console console]. apply last_last.
Qed.

Lemma on_click_twice_logs_once_witness :
  exists s1 s2 : PrjTray.Sess,
    PrjTray.on_click (KStr "200") (alpha_beta_session true) = (Ok tt, s1)
    /\ PrjTray.on_click (KStr "200") s1 = (Ok tt, s2)
    /\ (forall k', PrjTray.is_selected k' (PrjTray.self s1) = true
                   <-> k' = KStr "200")
    /\ PrjTray.self s2 = PrjTray.self s1
    /\ appended (PrjTray.world s2) = appended (PrjTray.world s1)
    /\ List.length (appended (PrjTray.world s2)) = 1
    /\ last (console (PrjTray.world s2)) "" = "No change".
Proof.
  apply (@on_click_twice_logs_once (alpha_beta_session true) (KStr "200")
           (Project.mk "200" "Beta" None []) (Bitmap "myIcon_Alpha.ico")).
  - discriminate.
  - reflexivity.
  - reflexivity.
  - reflexivity.
Defined.

(** ** Quitting *)

Lemma quit_run (trigger : string) (s : PrjTray.Sess) :
  let w := PrjTray.world s in
  let lf := PrjTray.logfile (PrjTray.self s) in
  let label := "QUIT (" ++ trigger ++ ")" in
  let w' := world_after_change w false label in
  PrjTray.quit trigger s
  = if appendable w lf
    then (Ok tt,
          PrjTray.mkSess (PrjTray.set_tray_stopped (PrjTray.self s))
            (with_appended (with_created w' lf)
               (appended w
                ++ [(lf, (change_record (clock w (clock_reads w)) label
                          ++ newline)%string)])%list))
    else (Raise OSError, PrjTray.mkSess (PrjTray.self s) w').
Proof.
  cbv zeta. destruct s as [self0 w0].
  unfold PrjTray.quit, bind at 1, gets at 1. unfold bind at 1.
  unfold PrjTray.in_world. cbn [PrjTray.self PrjTray.world].
  rewrite log_change_run. cbv zeta.
  destruct (appendable w0 (PrjTray.logfile self0)); reflexivity.
Qed.

(** X12: [quit] writes the record [QUIT (<trigger>)] first and stops the
    tray afterwards.  When the log file can be appended to, the tray is
    stopped and the record is the one new line of the log; the selection
    and the icon stay.  When it cannot, [OSError] is raised and the tray is
    not stopped: the tray object is unchanged and keeps running. *)
Theorem quit_logs_before_stopping (trigger : string) (s : PrjTray.Sess) :
  (appendable (PrjTray.world s) (PrjTray.logfile (PrjTray.self s)) = true ->
   exists s' : PrjTray.Sess,
     PrjTray.quit trigger s = (Ok tt, s')
     /\ PrjTray.tray_stopped (PrjTray.self s') = true
     /\ PrjTray.project (PrjTray.self s') = PrjTray.project (PrjTray.self s)
     /\ PrjTray.tray_icon (PrjTray.self s') = PrjTray.tray_icon (PrjTray.self s)
     /\ appended (PrjTray.world s')
        = (appended (PrjTray.world s)
           ++ [(PrjTray.logfile (PrjTray.self s),
                (strftime (clock (PrjTray.world s) (clock_reads (PrjTray.world s)))
                 ++ " -- changed <QUIT (" ++ trigger ++ ")>" ++ newline)%string)])%list)
  /\
  (appendable (PrjTray.world s) (PrjTray.logfile (PrjTray.self s)) = false ->
   exists s' : PrjTray.Sess,
     PrjTray.quit trigger s = (Raise OSError, s')
     /\ PrjTray.self s' = PrjTray.self s
     /\ PrjTray.tray_stopped (PrjTray.self s') = PrjTray.tray_stopped (PrjTray.self s)
     /\ appended (PrjTray.world s') = appended (PrjTray.world s)).
Proof.
  pose proof (quit_run trigger s) as Hrun. cbv zeta in Hrun.
  split; intros Happ; rewrite Happ in Hrun; eexists; (split; [exact Hrun|]).
  - cbn [PrjTray.self PrjTray.world PrjTray.set_tray_stopped PrjTray.tray_stopped
         PrjTray.project PrjTray.tray_icon with_appended appended].
    repeat split. unfold change_record.
    rewrite !string_app_assoc. reflexivity.
  - repeat split.
Qed.

Lemma quit_logs_before_stopping_witness :
  (exists s' : PrjTray.Sess,
     PrjTray.quit "Menu Exit" (alpha_beta_session true) = (Ok tt, s')
     /\ PrjTray.tray_stopped (PrjTray.self s') = true
     /\ PrjTray.project (PrjTray.self s') = KTup "100" "1"
     /\ PrjTray.tray_icon (PrjTray.self s') = Bitmap "myIcon_Alpha.ico"
     /\ appended (PrjTray.world s')
        = [("prjtrx_events.log",
            ("2023-04-05 06:07:00"
             ++ " -- changed <QUIT (" ++ "Menu Exit" ++ ")>" ++ newline)%string)])
  /\
  (exists s' : PrjTray.Sess,
     PrjTray.quit "SIGINT" (alpha_beta_session false) = (Raise OSError, s')
     /\ PrjTray.self s' = alpha_beta_tray
     /\ PrjTray.tray_stopped (PrjTray.self s') = false
     /\ appended (PrjTray.world s') = []).
Proof.
  split.
  - apply (proj1 (quit_logs_before_stopping "Menu Exit" (alpha_beta_session true))).
    reflexivity.
  - apply (proj2 (quit_logs_before_stopping "SIGINT" (alpha_beta_session false))).
    reflexivity.
Defined.

(** X13: the termination handler does nothing while no tray has been
    constructed; once there is one, it is [quit] with the trigger
    [SIGTERM]: with an appendable log file the tray is stopped and the one
    new log line reads [<timestamp> -- changed <QUIT (SIGTERM)>]. *)
Theorem term_handler_quits (s : PrjTray.Sess) :
  term_handler None = (Ok tt, None)
  /\ (appendable (PrjTray.world s) (PrjTray.logfile (PrjTray.self s)) = true ->
      exists s' : PrjTray.Sess,
        term_handler (Some s) = (Ok tt, Some s')
        /\ PrjTray.tray_stopped (PrjTray.self s') = true
        /\ appended (PrjTray.world s')
           = (appended (PrjTray.world s)
              ++ [(PrjTray.logfile (PrjTray.self s),
                   (strftime (clock (PrjTray.world s)
                                (clock_reads (PrjTray.world s)))
                    ++ " -- changed <QUIT (SIGTERM)>" ++ newline)%string)])%list).
Proof.
  split; [reflexivity|]. intros Happ.
  pose proof (quit_run "SIGTERM" s) as Hrun. cbv zeta in Hrun.
  rewrite Happ in Hrun. unfold term_handler. rewrite Hrun.
  eexists. split; [reflexivity|]. split; [reflexivity|].
  cbn [PrjTray.world with_appended appended]. unfold change_record.
  rewrite !string_app_assoc. reflexivity.
Qed.

Lemma term_handler_quits_witness :
  exists s' : PrjTray.Sess,
    term_handler (Some (alpha_beta_session true)) = (Ok tt, Some s')
    /\ PrjTray.tray_stopped (PrjTray.self s') = true
    /\ appended (PrjTray.world s')
       = [("prjtrx_events.log",
           ("2023-04-05 06:07:00" ++ " -- changed <QUIT (SIGTERM)>" ++ newline)%string)].
Proof.
  apply (proj2 (term_handler_quits (alpha_beta_session true))). reflexivity.
Defined.

(** ** What a click leaves alone *)

Lemma on_click_frame_pair (k : Key) (s : PrjTray.Sess) (r : Res unit)
  (s' : PrjTray.Sess) :
  PrjTray.on_click k s = (r, s') ->
  PrjTray.projects (PrjTray.self s') = PrjTray.projects (PrjTray.self s)
  /\ PrjTray.menu (PrjTray.self s') = PrjTray.menu (PrjTray.self s)
  /\ PrjTray.logfile (PrjTray.self s') = PrjTray.logfile (PrjTray.self s)
  /\ PrjTray.fallback_icon (PrjTray.self s')
     = PrjTray.fallback_icon (PrjTray.self s)
  /\ PrjTray.tray_stopped (PrjTray.self s')
     = PrjTray.tray_stopped (PrjTray.self s)
  /\ (exists l, appended (PrjTray.world s')
                = (appended (PrjTray.world s) ++ l)%list
                /\ List.length l <= 1)
  /\ (exists c, console (PrjTray.world s')
                = (console (PrjTray.world s) ++ c)%list).
Proof.
  destruct s as [self0 w0].
  unfold PrjTray.on_click, bind at 1, gets at 1.
  cbn [PrjTray.self PrjTray.world].
  destruct (Key_eqb (PrjTray.project self0) k).
  - intros E. inversion E; subst. cbn. repeat split.
    + exists nil. rewrite app_nil_r. split; [reflexivity | cbn; lia].
    + eexists. reflexivity.
  - unfold PrjTray.change_project, bind, PrjTray.update_self, modify, gets,
      lift_res.
    cbn [PrjTray.self PrjTray.world PrjTray.set_project PrjTray.projects].
    destruct (PrjTray.get_project (PrjTray.projects self0) k) as [[p wp]|e].
    2:{ intros E. inversion E; subst. cbn. repeat split.
        - exists nil. rewrite app_nil_r. split; [reflexivity | cbn; lia].
        - exists nil. rewrite app_nil_r. reflexivity. }
    destruct (Project.get_wp_icon p wp) as [path|].
    + unfold PrjTray.in_world, Image_open, bind, gets, ret.
      cbn [PrjTray.self PrjTray.world].
      destruct (image_file w0 (Path.to_string path)) as [img|].
      2:{ intros E. inversion E; subst. cbn. repeat split.
          - exists nil. rewrite app_nil_r. split; [reflexivity | cbn; lia].
          - exists nil. rewrite app_nil_r. reflexivity. }
      cbn [PrjTray.self PrjTray.world PrjTray.set_tray_icon PrjTray.logfile
           PrjTray.set_project].
      rewrite log_change_run. cbv zeta.
      destruct (appendable w0 (PrjTray.logfile self0));
        intros E; inversion E; subst; cbn; repeat split.
      * eexists. split; [reflexivity | cbn; lia].
      * eexists. reflexivity.
      * exists nil. rewrite app_nil_r. split; [reflexivity | cbn; lia].
      * eexists. reflexivity.
    + unfold PrjTray.in_world, print, bind, gets, modify, ret.
      cbn [PrjTray.self PrjTray.world PrjTray.set_tray_icon PrjTray.logfile
           PrjTray.set_project PrjTray.fallback_icon].
      rewrite log_change_run. cbv zeta.
      cbn [appendable with_console].
      destruct (appendable w0 (PrjTray.logfile self0));
        intros E; inversion E; subst; cbn; repeat split.
      * eexists. split; [reflexivity | cbn; lia].
      * eexists. rewrite <- app_assoc. reflexivity.
      * exists nil. rewrite app_nil_r. split; [reflexivity | cbn; lia].
      * eexists. rewrite <- app_assoc. reflexivity.
Qed.

(** X14: whatever the key and whatever the outcome, normal return or
    exception, a click never changes the catalog, the menu, the log-file
    path, the cached fallback icon or the stopped flag of the tray; it makes
    at most one append to the log, after what was there, and the console
    only grows. *)
Theorem on_click_frame (k : Key) (s : PrjTray.Sess) :
  let s' := snd (PrjTray.on_click k s) in
  PrjTray.projects (PrjTray.self s') = PrjTray.projects (PrjTray.self s)
  /\ PrjTray.menu (PrjTray.self s') = PrjTray.menu (PrjTray.self s)
  /\ PrjTray.logfile (PrjTray.self s') = PrjTray.logfile (PrjTray.self s)
  /\ PrjTray.fallback_icon (PrjTray.self s')
     = PrjTray.fallback_icon (PrjTray.self s)
  /\ PrjTray.tray_stopped (PrjTray.self s')
     = PrjTray.tray_stopped (PrjTray.self s)
  /\ (exists l, appended (PrjTray.world s')
                = (appended (PrjTray.world s) ++ l)%list
                /\ List.length l <= 1)
  /\ (exists c, console (PrjTray.world s')
                = (console (PrjTray.world s) ++ c)%list).
Proof.
  cbv zeta. destruct (PrjTray.on_click k s) as [r s'] eqn:E.
  cbn [snd]. exact (on_click_frame_pair k s E).
Qed.

(** ** Labels and icons of a selection *)

(** X15: a project with exactly one work-package is selected by its id
    alone; the record of that change names the work-package
    ([<id>:<work-package id>]) while the icon displayed is the project's
    (else the cached fallback), whatever icon the work-package has. *)
Theorem single_workpackage_click
  (s : PrjTray.Sess) (pid : string) (p : Project.t) (w1 : string)
  (v : string * option Path.t) (shown : Image) :
  PrjTray.project (PrjTray.self s) <> KStr pid ->
  OrderedDict.find (PrjTray.projects (PrjTray.self s)) pid = Some p ->
  Project.workpackages p = [(w1, v)] ->
  match Project.icon p with
  | Some path => image_file (PrjTray.world s) (Path.to_string path)
  | None => Some (PrjTray.fallback_icon (PrjTray.self s))
  end = Some shown ->
  appendable (PrjTray.world s) (PrjTray.logfile (PrjTray.self s)) = true ->
  exists s' : PrjTray.Sess,
    PrjTray.on_click (KStr pid) s = (Ok tt, s')
    /\ PrjTray.project (PrjTray.self s') = KStr pid
    /\ PrjTray.tray_icon (PrjTray.self s') = shown
    /\ appended (PrjTray.world s')
       = (appended (PrjTray.world s)
          ++ [(PrjTray.logfile (PrjTray.self s),
               (strftime (clock (PrjTray.world s) (clock_reads (PrjTray.world s)))
                ++ " -- changed <" ++ Project.id p ++ ":" ++ w1 ++ ">"
                ++ newline)%string)])%list.
Proof.
  intros Hne Hfind Hwp Hicon Happ.
  assert (Hres : ResolveIcon p (KStr pid) (PrjTray.fallback_icon (PrjTray.self s))
                   (PrjTray.world s) = Some shown) by exact Hicon.
  pose proof (@change_project_run s (KStr pid) p shown Hfind Hres) as Hrun.
  cbv zeta in Hrun. rewrite Happ in Hrun.
  rewrite <- (on_click_other _ Hne) in Hrun.
  eexists. split; [exact Hrun|].
  cbn [PrjTray.self PrjTray.world with_appended appended].
  split; [reflexivity|]. split; [reflexivity|].
  unfold change_record, selection_label, OrderedDict.keys.
  cbn [key_wp]. rewrite Hwp. cbn [map fst].
  rewrite !string_app_assoc. reflexivity.
Qed.

Lemma single_workpackage_click_witness :
  exists s' : PrjTray.Sess,
    PrjTray.on_click (KStr "7")
      (PrjTray.mkSess
         (PrjTray.mk (KStr "0") "log"
            [("7", Project.mk "7" "Seven" None
                     [("1", ("One", Some (Path.mk "" ["myIcon_One.ico"])))])]
            [] (Bitmap "fallback") (Bitmap "fallback") false)
         (sample_world ["myIcon_One.ico"] true))
    = (Ok tt, s')
    /\ PrjTray.project (PrjTray.self s') = KStr "7"
    /\ PrjTray.tray_icon (PrjTray.self s') = Bitmap "fallback"
    /\ appended (PrjTray.world s')
       = [("log",
           ("2023-04-05 06:07:00" ++ " -- changed <" ++ "7" ++ ":" ++ "1" ++ ">"
            ++ newline)%string)].
Proof.
  apply (@single_workpackage_click
           (PrjTray.mkSess
              (PrjTray.mk (KStr "0") "log"
                 [("7", Project.mk "7" "Seven" None
                          [("1", ("One", Some (Path.mk "" ["myIcon_One.ico"])))])]
                 [] (Bitmap "fallback") (Bitmap "fallback") false)
              (sample_world ["myIcon_One.ico"] true))
           "7"
           (Project.mk "7" "Seven" None
              [("1", ("One", Some (Path.mk "" ["myIcon_One.ico"])))])
           "1" ("One", Some (Path.mk "" ["myIcon_One.ico"]))
           (Bitmap "fallback")).
  - discriminate.
  - reflexivity.
  - reflexivity.
  - reflexivity.
  - reflexivity.
Defined.

(** X16: [get_wp_icon] returns the project's icon for a key that is [None]
    or names no work-package of the project, and it returns no path exactly
    when the project has no icon and the key names no work-package with an
    icon: only then is the cached fallback displayed. *)
Theorem get_wp_icon_fallback (p : Project.t) (key : option string) :
  (OrderedDict.mem (Project.workpackages p) key = false ->
   Project.get_wp_icon p key = Project.icon p)
  /\ (Project.get_wp_icon p key = None
      <-> Project.icon p = None
          /\ forall k n f, key = Some k ->
               OrderedDict.find (Project.workpackages p) k <> Some (n, Some f)).
Proof.
  unfold Project.get_wp_icon, OrderedDict.mem.
  destruct key as [k|].
  - destruct (OrderedDict.find (Project.workpackages p) k) as [[n i]|] eqn:E.
    + split; [discriminate|]. cbn [snd]. destruct i as [f|].
      * split; [discriminate|]. intros [_ H].
        exfalso. apply (H k n f eq_refl). exact E.
      * split.
        -- intros H. split; [exact H|]. intros k' n' f' Hk.
           inversion Hk; subst. rewrite E. discriminate.
        -- intros [H _]. exact H.
    + split; [reflexivity|]. split.
      * intros H. split; [exact H|]. intros k' n' f' Hk.
        inversion Hk; subst. rewrite E. discriminate.
      * intros [H _]. exact H.
  - split; [reflexivity|]. split.
    + intros H. split; [exact H|]. intros k n f Hk. discriminate.
    + intros [H _]. exact H.
Qed.

Lemma get_wp_icon_fallback_witness :
  Project.get_wp_icon
    (Project.mk "100" "Alpha" (Some alpha_icon) [("1", ("Setup", None))])
    (Some "9")
  = Some alpha_icon.
Proof.
  apply (proj1 (get_wp_icon_fallback
                  (Project.mk "100" "Alpha" (Some alpha_icon)
                     [("1", ("Setup", None))])
                  (Some "9"))).
  reflexivity.
Defined.

(** ** More on identifiers *)

Lemma string_app_nil_r (a : string) : a ++ "" = a.
Proof.
  induction a as [|c a IH]; simpl; [reflexivity|]. rewrite IH. reflexivity.
Qed.

Lemma concat_ends_with_sep_last (sep : ascii) (first b : string)
  (rest : list string) :
  exists pre,
    String.concat (String sep "") (first :: b :: rest)
    = pre ++ String sep (last (b :: rest) first).
Proof.
  revert first b. induction rest as [|c rest IH]; intros first b.
  - exists first. reflexivity.
  - destruct (IH b c) as (pre & Hpre).
    exists (first ++ String sep pre).
    rewrite concat_cons2, Hpre.
    change (last (b :: c :: rest) first) with (last (c :: rest) first).
    rewrite (last_cons_default rest first c), (last_cons_default rest b c).
    rewrite string_app_assoc. reflexivity.
Qed.

(** X17: the id and the name [get_id_name] returns contain no dash and the
    identifier begins with the id and ends with the name; when the
    identifier contains a dash, the id is followed by a dash and the name is
    preceded by one, and otherwise both are the whole identifier. *)
Theorem get_id_name_parts (prj : string) :
  exists i n : string,
    get_id_name prj = Ok (i, n)
    /\ dashfree i = true
    /\ dashfree n = true
    /\ (dashfree prj = true -> i = prj /\ n = prj)
    /\ (dashfree prj = false ->
        (exists rest, prj = i ++ "-" ++ rest)
        /\ (exists pre, prj = pre ++ "-" ++ n)).
Proof.
  pose proof (split_not_nil "-" prj) as Hnn.
  pose proof (split_parts_free "-" prj) as Hfree.
  pose proof (concat_split "-" prj) as Hcat.
  destruct (split "-" prj) as [|first rest] eqn:Hs; [congruence|].
  exists first, (last rest first).
  split; [apply get_id_name_split; exact Hs|].
  cbn [forallb] in Hfree. apply andb_true_iff in Hfree. destruct Hfree as [Hf Hr].
  split; [exact Hf|].
  assert (Hlast : dashfree (last rest first) = true).
  { destruct rest as [|b rest']; [exact Hf|].
    rewrite forallb_forall in Hr. apply Hr.
    apply last_in_cons. }
  split; [exact Hlast|].
  destruct rest as [|b rest'].
  - cbn in Hcat. subst prj. split; [intros _; split; reflexivity|].
    intros Hd. cbn [last] in *. congruence.
  - split.
    + intros Hd. exfalso.
      rewrite concat_cons2 in Hcat. rewrite <- Hcat in Hd.
      unfold dashfree in Hd. rewrite contains_app in Hd.
      cbn [contains] in Hd. rewrite Ascii.eqb_refl in Hd.
      cbn [orb] in Hd. rewrite orb_true_r in Hd. discriminate.
    + intros _. split.
      * rewrite concat_cons2 in Hcat. eexists. symmetry. exact Hcat.
      * destruct (concat_ends_with_sep_last "-" first b rest') as (pre & Hpre).
        exists pre. rewrite <- Hcat. exact Hpre.
Qed.

(** ** The icon probe on names with a dot *)

Lemma string_length_app (a b : string) :
  String.length (a ++ b) = String.length a + String.length b.
Proof.
  induction a as [|c a IH]; simpl; [reflexivity|]. rewrite IH. reflexivity.
Qed.

Lemma rfind_app_last (c : ascii) (a b : string) :
  contains c b = false ->
  rfind c (a ++ String c b) = Some (String.length a).
Proof.
  intros Hb. induction a as [|x a IH]; simpl.
  - rewrite (@rfind_absent c b Hb), Ascii.eqb_refl. reflexivity.
  - rewrite IH. reflexivity.
Qed.

Lemma substring_whole (q : string) : substring 0 (String.length q) q = q.
Proof.
  induction q as [|c q IH]; simpl; [reflexivity|]. rewrite IH. reflexivity.
Qed.

Lemma substring_skip (a q : string) (m : nat) :
  substring (String.length a) m (a ++ q) = substring 0 m q.
Proof.
  induction a as [|c a IH]; simpl; [reflexivity | exact IH].
Qed.

Lemma substring_prefix (a q : string) :
  substring 0 (String.length a) (a ++ q) = a.
Proof.
  induction a as [|c a IH]; simpl.
  - destruct q; reflexivity.
  - rewrite IH. reflexivity.
Qed.

Lemma suffix_of_name_last_dot (P b : string) :
  0 < String.length P -> 0 < String.length b -> contains "." b = false ->
  Path.suffix_of_name (P ++ String "." b) = String "." b.
Proof.
  intros HP Hb Hdb. unfold Path.suffix_of_name.
  rewrite (@rfind_app_last "." P b Hdb), string_length_app.
  change (String.length (String "." b)) with (S (String.length b)).
  replace (0 <? String.length P)%nat with true
    by (symmetry; apply Nat.ltb_lt; exact HP).
  replace (String.length P <? String.length P + S (String.length b) - 1)%nat
    with true by (symmetry; apply Nat.ltb_lt; lia).
  cbn [andb].
  replace (String.length P + S (String.length b) - String.length P)
    with (S (String.length b)) by lia.
  rewrite substring_skip.
  change (substring 0 (S (String.length b)) (String "." b))
    with (String "." (substring 0 (String.length b) b)).
  rewrite substring_whole. reflexivity.
Qed.

Lemma with_suffix_last_dot (P b sfx : string) :
  0 < String.length P -> 0 < String.length b -> contains "." b = false ->
  Path.with_suffix (Path.mk "" [P ++ String "." b]) sfx
  = Ok (Path.mk "" [P ++ sfx]).
Proof.
  intros HP Hb Hdb. unfold Path.with_suffix, Path.suffix, Path.name.
  cbn [Path.parts Path.root last removelast app].
  rewrite (@suffix_of_name_last_dot P b HP Hb Hdb).
  replace (String.eqb (P ++ String "." b) "") with false
    by (destruct P; [simpl in HP; lia | reflexivity]).
  cbn [String.eqb]. rewrite string_length_app.
  replace (String.length P + String.length (String "." b)
           - String.length (String "." b)) with (String.length P) by lia.
  rewrite substring_prefix. reflexivity.
Qed.

(** X18: for a display name [a.b] whose last part [b] is not empty and has
    no dot, and which has no slash, the file probed is [myIcon_a.ico]: the
    part after the last dot of the name is dropped, so all names that differ
    only after their last dot share one icon file. *)
Theorem get_image_path_drops_last_dot_part (a b : string) (w : World) :
  contains "/" a = false ->
  contains "/" b = false ->
  contains "." b = false ->
  b <> "" ->
  get_image_path (a ++ "." ++ b) w
  = (Ok (if fs_exists w ("myIcon_" ++ a ++ ".ico")
         then Some (Path.mk "" ["myIcon_" ++ a ++ ".ico"])
         else None), w).
Proof.
  intros Hsa Hsb Hdb Hne.
  assert (Hlen : 0 < String.length b) by (destruct b; [congruence | simpl; lia]).
  assert (Hof : Path.of_string ("myIcon_" ++ a ++ "." ++ b)
                = Path.mk "" [("myIcon_" ++ a) ++ String "." b]).
  { unfold Path.of_string.
    replace (split "/" ("myIcon_" ++ a ++ "." ++ b))
      with ["myIcon_" ++ a ++ "." ++ b]
      by (symmetry; apply split_free; rewrite !contains_app, Hsa, Hsb;
          reflexivity).
    rewrite (string_app_assoc "myIcon_" a (String "." b)). reflexivity. }
  unfold get_image_path, bind, lift_res. rewrite Hof.
  rewrite (@with_suffix_last_dot ("myIcon_" ++ a) b ".ico");
    [| simpl; lia | exact Hlen | exact Hdb].
  unfold path_exists, gets, ret, Path.to_string. cbn [Path.root Path.parts].
  change (String.concat "/" [("myIcon_" ++ a) ++ ".ico"])
    with (("myIcon_" ++ a) ++ ".ico").
  rewrite (string_app_assoc "myIcon_" a ".ico"). cbn [append].
  destruct (fs_exists w _); reflexivity.
Qed.

Lemma get_image_path_drops_last_dot_part_witness :
  get_image_path ("Rev" ++ "." ++ "B") (sample_world ["myIcon_Rev.ico"] true)
  = (Ok (Some (Path.mk "" ["myIcon_Rev.ico"])),
     sample_world ["myIcon_Rev.ico"] true).
Proof.
  apply (@get_image_path_drops_last_dot_part "Rev" "B"
           (sample_world ["myIcon_Rev.ico"] true)).
  - reflexivity.
  - reflexivity.
  - reflexivity.
  - discriminate.
Defined.

(** ** Keys with the same id *)

(** X19: a configuration key added at the end replaces the project stored
    under the same id, if there is one, in the place that id already had,
    and is added at the end otherwise; it is the project found under its id
    afterwards, and what is found under every other id is unchanged. *)
Theorem build_projects_last_wins (conf : Config) (k : string) (v : list string)
  (w : World) :
  exists (projects0 : OrderedDict.t Project.t) (p : Project.t),
    build_projects conf w = (Ok projects0, w)
    /\ Project.init k v w = (Ok p, w)
    /\ build_projects (conf ++ [(k, v)])%list w
       = (Ok (OrderedDict.set projects0 (Project.id p) p), w)
    /\ OrderedDict.get (OrderedDict.set projects0 (Project.id p) p) (Project.id p)
       = Ok p
    /\ OrderedDict.keys (OrderedDict.set projects0 (Project.id p) p)
       = (if OrderedDict.mem projects0 (Some (Project.id p))
          then OrderedDict.keys projects0
          else (OrderedDict.keys projects0 ++ [Project.id p])%list)
    /\ (forall i, i <> Project.id p ->
          OrderedDict.find (OrderedDict.set projects0 (Project.id p) p) i
          = OrderedDict.find projects0 i).
Proof.
  destruct (build_projects_returns conf w) as (projects0 & Hb & _).
  destruct (Project_init_returns k v w) as (p & Hp & _).
  exists projects0, p. split; [exact Hb|]. split; [exact Hp|]. split.
  - unfold build_projects in *. rewrite for_each_app, Hb.
    cbn [for_each]. unfold bind. rewrite Hp. reflexivity.
  - split.
    + unfold OrderedDict.get. rewrite od_find_set_same. reflexivity.
    + split; [apply od_keys_set|].
      intros i Hi. apply od_find_set_other. exact Hi.
Qed.

(** ** Start-up as a whole *)

Lemma build_nonempty (conf : Config) (w : World)
  (projects : OrderedDict.t Project.t) :
  build_projects conf w = (Ok projects, w) -> conf <> [] -> projects <> [].
Proof.
  intros Hb Hne. destruct (build_projects_spec conf w)
    as (projects' & Hb' & _ & _ & Hkeys & _).
  rewrite Hb' in Hb. inversion Hb; subst projects'. clear Hb.
  destruct conf as [|[k v] conf]; [congruence|].
  destruct (get_id_name_returns k) as (i & n & E).
  assert (Hin : In i (OrderedDict.keys projects)).
  { apply Hkeys. unfold config_ids. cbn [flat_map fst]. rewrite E.
    left. reflexivity. }
  intros ->. exact Hin.
Qed.

(** X20: when the catalog build returns, the default computation returns a
    key exactly when the configuration is not empty: on an empty
    configuration it raises [StopIteration], which ends start-up before
    anything is printed, logged or constructed; on any other it returns a
    key. *)
Theorem default_selection_returns_iff_nonempty (logfile : string)
  (conf : Config) (w w' : World) (projects : OrderedDict.t Project.t) :
  build_projects conf w = (Ok projects, w') ->
  (conf = [] ->
   default_selection projects = Raise StopIteration
   /\ startup logfile conf w = (Raise StopIteration, w))
  /\ (conf <> [] -> exists k : Key, default_selection projects = Ok k).
Proof.
  intros Hbuild.
  destruct (build_projects_returns conf w) as (projects0 & Hb & _).
  rewrite Hb in Hbuild. inversion Hbuild; subst projects0 w'. clear Hbuild.
  split.
  - intros ->. cbn in Hb. inversion Hb; subst. split; reflexivity.
  - intros Hne. pose proof (build_nonempty Hb Hne) as Hp.
    destruct projects as [|[k p] rest]; [congruence|].
    unfold default_selection. cbn [OrderedDict.first_value res_bind].
    destruct (1 <? List.length (Project.workpackages p))%nat eqn:E.
    + destruct (Project.workpackages p) as [|[w1 v1] r]; [discriminate|].
      eexists. reflexivity.
    + eexists. reflexivity.
Qed.

Lemma default_selection_returns_iff_nonempty_witness :
  exists k : Key, default_selection alpha_beta_projects = Ok k.
Proof.
  destruct (@default_selection_returns_iff_nonempty "prjtrx_events.log"
              alpha_beta (sample_world ["myIcon_Alpha.ico"] true)
              (sample_world ["myIcon_Alpha.ico"] true) alpha_beta_projects)
    as (_ & Hne).
  - vm_compute. reflexivity.
  - apply Hne. discriminate.
Defined.

(** X21: start-up succeeds on a configuration whose first project has two
    or more work-packages, when the icon chosen for its first work-package
    (its own, else the project's) opens as an image and the log file can be
    appended to: the tray starts on the pair of the first project's id and
    its first work-package's id, with that image displayed and cached as the
    fallback, and the log gets the one record [<id>:<work-package id>]. *)
Theorem startup_succeeds_on_first_workpackage
  (logfile : string) (conf : Config) (w : World)
  (projects rest : OrderedDict.t Project.t) (k : string) (p : Project.t)
  (first_wp : string) (path : Path.t) (img : Image) :
  build_projects conf w = (Ok projects, w) ->
  projects = (k, p) :: rest ->
  2 <= List.length (Project.workpackages p) ->
  OrderedDict.first_key (Project.workpackages p) = Ok first_wp ->
  Project.get_wp_icon p (Some first_wp) = Some path ->
  image_file w (Path.to_string path) = Some img ->
  appendable w logfile = true ->
  exists (tray : PrjTray.t) (w' : World),
    startup logfile conf w = (Ok tray, w')
    /\ PrjTray.project tray = KTup (Project.id p) first_wp
    /\ PrjTray.projects tray = projects
    /\ PrjTray.menu tray = PrjTray.make_menu projects
    /\ PrjTray.fallback_icon tray = img
    /\ PrjTray.tray_icon tray = img
    /\ appended w'
       = (appended w
          ++ [(logfile,
               (strftime (clock w (clock_reads w))
                ++ " -- changed <" ++ Project.id p ++ ":" ++ first_wp ++ ">"
                ++ newline)%string)])%list.
Proof.
  intros Hb -> Hlen Hfirst Hget Himg Happ.
  destruct (build_projects_spec conf w) as (projects & Hb' & Hk & _).
  rewrite Hb' in Hb. inversion Hb; subst projects. clear Hb.
  assert (Hid : k = Project.id p).
  { apply (@keyed_by_id_in ((k, p) :: rest) k p Hk). left. reflexivity. }
  subst k.
  assert (Hlt : (1 <? List.length (Project.workpackages p))%nat = true)
    by (apply Nat.ltb_lt; lia).
  assert (Hd : default_selection ((Project.id p, p) :: rest)
               = Ok (KTup (Project.id p) first_wp)).
  { unfold default_selection. cbn [OrderedDict.first_value res_bind].
    rewrite Hlt, Hfirst. reflexivity. }
  assert (Hfind : OrderedDict.find ((Project.id p, p) :: rest)
                    (key_project (KTup (Project.id p) first_wp)) = Some p).
  { cbn [key_project OrderedDict.find]. rewrite String.eqb_refl. reflexivity. }
  unfold startup. unfold bind at 1. rewrite Hb'.
  unfold bind at 1. unfold lift_res. rewrite Hd.
  rewrite (@PrjTray_init_run logfile ((Project.id p, p) :: rest)
             (KTup (Project.id p) first_wp) p path img w Hfind Hget Himg Happ).
  eexists. eexists. split; [reflexivity|].
  cbn [PrjTray.project PrjTray.projects PrjTray.menu PrjTray.fallback_icon
       PrjTray.tray_icon with_appended appended].
  repeat split.
  unfold change_record, selection_label. cbn [key_wp].
  rewrite !string_app_assoc. reflexivity.
Qed.

Lemma startup_succeeds_on_first_workpackage_witness :
  exists (tray : PrjTray.t) (w' : World),
    startup "prjtrx_events.log" alpha_beta (sample_world ["myIcon_Alpha.ico"] true)
    = (Ok tray, w')
    /\ PrjTray.project tray = KTup "100" "1"
    /\ PrjTray.projects tray = alpha_beta_projects
    /\ PrjTray.menu tray = PrjTray.make_menu alpha_beta_projects
    /\ PrjTray.fallback_icon tray = Bitmap "myIcon_Alpha.ico"
    /\ PrjTray.tray_icon tray = Bitmap "myIcon_Alpha.ico"
    /\ appended w'
       = [("prjtrx_events.log",
           ("2023-04-05 06:07:00" ++ " -- changed <" ++ "100" ++ ":" ++ "1" ++ ">"
            ++ newline)%string)].
Proof.
  apply (@startup_succeeds_on_first_workpackage
           "prjtrx_events.log" alpha_beta
           (sample_world ["myIcon_Alpha.ico"] true)
           alpha_beta_projects
           [("200", Project.mk "200" "Beta" None [])]
           "100"
           (Project.mk "100" "Alpha" (Some alpha_icon)
              [("1", ("Setup", None)); ("2", ("Build", None))])
           "1" alpha_icon (Bitmap "myIcon_Alpha.ico")).
  - vm_compute. reflexivity.
  - reflexivity.
  - simpl. lia.
  - reflexivity.
  - reflexivity.
  - reflexivity.
  - reflexivity.
Defined.

(** X22: the catalog look-up of a transition checks the project only: a key
    that names a known project and a work-package the project does not have
    is accepted; the transition returns normally, the key becomes the
    current selection, the project's icon (else the cached fallback) is
    displayed and the record names the unknown work-package. *)
Theorem on_click_unknown_workpackage
  (s : PrjTray.Sess) (pid wid : string) (p : Project.t) (shown : Image) :
  PrjTray.project (PrjTray.self s) <> KTup pid wid ->
  OrderedDict.find (PrjTray.projects (PrjTray.self s)) pid = Some p ->
  OrderedDict.mem (Project.workpackages p) (Some wid) = false ->
  match Project.icon p with
  | Some path => image_file (PrjTray.world s) (Path.to_string path)
  | None => Some (PrjTray.fallback_icon (PrjTray.self s))
  end = Some shown ->
  appendable (PrjTray.world s) (PrjTray.logfile (PrjTray.self s)) = true ->
  valid_key (PrjTray.projects (PrjTray.self s)) (KTup pid wid) = false
  /\ exists s' : PrjTray.Sess,
       PrjTray.on_click (KTup pid wid) s = (Ok tt, s')
       /\ PrjTray.project (PrjTray.self s') = KTup pid wid
       /\ PrjTray.tray_icon (PrjTray.self s') = shown
       /\ appended (PrjTray.world s')
          = (appended (PrjTray.world s)
             ++ [(PrjTray.logfile (PrjTray.self s),
                  (strftime (clock (PrjTray.world s)
                               (clock_reads (PrjTray.world s)))
                   ++ " -- changed <" ++ Project.id p ++ ":" ++ wid ++ ">"
                   ++ newline)%string)])%list.
Proof.
  intros Hne Hfind Hmem Hicon Happ.
  split.
  { unfold valid_key. cbn [key_project key_wp]. rewrite Hfind. exact Hmem. }
  assert (Hres : ResolveIcon p (KTup pid wid)
                   (PrjTray.fallback_icon (PrjTray.self s)) (PrjTray.world s)
                 = Some shown).
  { unfold ResolveIcon, wp_icon. cbn [key_wp].
    unfold OrderedDict.mem in Hmem.
    destruct (OrderedDict.find (Project.workpackages p) wid); [discriminate|].
    exact Hicon. }
  assert (Hfind' : OrderedDict.find (PrjTray.projects (PrjTray.self s))
                     (key_project (KTup pid wid)) = Some p) by exact Hfind.
  pose proof (@change_project_run s (KTup pid wid) p shown Hfind' Hres) as Hrun.
  cbv zeta in Hrun. rewrite Happ in Hrun.
  rewrite <- (on_click_other _ Hne) in Hrun.
  eexists. split; [exact Hrun|].
  cbn [PrjTray.self PrjTray.world with_appended appended].
  split; [reflexivity|]. split; [reflexivity|].
  unfold change_record, selection_label. cbn [key_wp].
  rewrite !string_app_assoc. reflexivity.
Qed.

Lemma on_click_unknown_workpackage_witness :
  valid_key alpha_beta_projects (KTup "200" "9") = false
  /\ exists s' : PrjTray.Sess,
       PrjTray.on_click (KTup "200" "9") (alpha_beta_session true) = (Ok tt, s')
       /\ PrjTray.project (PrjTray.self s') = KTup "200" "9"
       /\ PrjTray.tray_icon (PrjTray.self s') = Bitmap "myIcon_Alpha.ico"
       /\ appended (PrjTray.world s')
          = [("prjtrx_events.log",
              ("2023-04-05 06:07:00" ++ " -- changed <" ++ "200" ++ ":" ++ "9"
               ++ ">" ++ newline)%string)].
Proof.
  apply (@on_click_unknown_workpackage (alpha_beta_session true) "200" "9"
           (Project.mk "200" "Beta" None []) (Bitmap "myIcon_Alpha.ico")).
  - discriminate.
  - reflexivity.
  - reflexivity.
  - reflexivity.
  - reflexivity.
Defined.
